(** * btoandav20: the Oanda v20 store (stores/oandav20store.py)

    A shallow embedding of [OandaV20Store] and of its metaclass
    [MetaSingleton], with the properties of the store's contract:
    granularity lookup, the unimplemented operations, the notification
    queue, the account poller, [start] and the singleton. *)

From stdpp Require Import gmap strings list.
From Stdlib Require Import QArith.
From Equations Require Import Equations.

Local Open Scope Z_scope.
Local Open Scope string_scope.
Local Open Scope list_scope.

(** ** Python dictionaries

    A dict display [{k1: v1, ..., kn: vn}] evaluates its items from left to
    right and stores them one after the other, so a later item replaces an
    earlier one with an equal key. *)

Definition dict_display `{Countable K} {V} (items : list (K * V)) : gmap K V :=
  foldl (λ d kv, <[kv.1 := kv.2]> d) ∅ items.

(** ** The granularity table *)

Section Granularities.

(** The members of backtrader's [bt.TimeFrame] that the table uses.
    backtrader is not part of this repository: the members are integers
    there, and all that is used of them here is that they are distinct. *)
Variables Seconds Minutes Days Weeks Months : Z.

(** [_GRANULARITIES], item by item as the class body writes it. *)
Definition _GRANULARITIES_items : list ((Z * Z) * string) :=
  [ ((Seconds, 5), "S5");
    ((Seconds, 10), "S10");
    ((Seconds, 15), "S15");
    ((Seconds, 30), "S30");
    ((Minutes, 1), "M1");
    ((Minutes, 2), "M3");
    ((Minutes, 3), "M3");
    ((Minutes, 4), "M4");
    ((Minutes, 5), "M5");
    ((Minutes, 10), "M10");
    ((Minutes, 15), "M15");
    ((Minutes, 30), "M30");
    ((Minutes, 60), "H1");
    ((Minutes, 120), "H2");
    ((Minutes, 180), "H3");
    ((Minutes, 240), "H4");
    ((Minutes, 360), "H6");
    ((Minutes, 480), "H8");
    ((Days, 1), "D");
    ((Weeks, 1), "W");
    ((Months, 1), "M") ].

Definition _GRANULARITIES : gmap (Z * Z) string :=
  dict_display _GRANULARITIES_items.

(** [self._GRANULARITIES.get((timeframe, compression), None)]: Python's
    [None] default is the [None] of [option]. *)
Definition get_granularity (timeframe compression : Z) : option string :=
  _GRANULARITIES !! (timeframe, compression).

End Granularities.

(** The table with backtrader's numbering of the time frames
    ([Ticks, MicroSeconds, Seconds, Minutes, Days, Weeks, Months, ...] are
    [1, 2, 3, ...]). *)
Module TimeFrame.
Definition Seconds : Z := 3.
Definition Minutes : Z := 4.
Definition Days : Z := 5.
Definition Weeks : Z := 6.
Definition Months : Z := 7.
End TimeFrame.

Definition bt_get_granularity : Z → Z → option string :=
  get_granularity TimeFrame.Seconds TimeFrame.Minutes TimeFrame.Days
                  TimeFrame.Weeks TimeFrame.Months.

(** ** Python values, exceptions and results *)

(** The exception classes that the store raises or catches by name; any
    other subclass of [Exception] is [OtherError] with its class name. *)
Inductive exn_class :=
  | Exception          (* the base class itself, as in [raise Exception(...)] *)
  | KeyError
  | AttributeError
  | IndexError
  | Empty              (* [queue.Empty] *)
  | OtherError (name : string).

(** An exception object: an instance of [Exception] or of a subclass, with
    the message it was built with. *)
Record exn := Exn { exn_cls : exn_class; exn_msg : string }.

Inductive pyval :=
  | PyNone
  | PyBool (b : bool)
  | PyInt (z : Z)
  | PyFloat (q : Q)
  | PyStr (s : string)
  | PyExn (e : exn).

(** What evaluating an expression or a call does: a value, or an exception
    that propagates. *)
Inductive result (A : Type) :=
  | Ok (a : A)
  | Raise (e : exn).
Arguments Ok {A} a.
Arguments Raise {A} e.

(** [isinstance(e, KeyError)] and [isinstance(e, queue.Empty)]; every
    [exn] is an instance of [Exception]. *)
Definition is_KeyError (e : exn) : bool :=
  match exn_cls e with KeyError => true | _ => false end.

Definition is_Empty (e : exn) : bool :=
  match exn_cls e with Empty => true | _ => false end.

(** [x is None] *)
Definition is_None (v : pyval) : bool :=
  match v with PyNone => true | _ => false end.

(** ** The store object *)

(** [params], with the defaults of the class body. *)
Record params := Params {
  token : string;
  account : string;
  practice : bool;
  account_tmout : Q;
}.

Definition default_params : params :=
  {| token := ""; account := ""; practice := false; account_tmout := 10 # 1 |}.

(** A [v20.Context], as the arguments it is built with. *)
Record Context := {
  hostname : string;
  port : Z;
  ssl : bool;
  ctx_token : string;
  datetime_format : string;
}.

Definition _OAPI_URL : list string :=
  ["api-fxtrade.oanda.com"; "api-fxpractice.oanda.com"].
Definition _OAPI_STREAM_URL : list string :=
  ["stream-fxtrade.oanda.com"; "stream-fxpractice.oanda.com"].

(** A notification is the tuple [(msg, args, kwargs)]. *)
Definition notification : Type := pyval * list pyval * list (string * pyval).

(** A data feed, with the [_env] attribute that [start] reads, and a broker;
    both are objects of the host framework, known here by reference. *)
Record data_feed := { feed_id : nat; feed_env : pyval }.
Definition broker_ref : Type := nat.

Record OandaV20Store := mkStore {
  p : params;
  (** [collections.deque]: an element is a notification or the mark [None] *)
  notifs : list (option notification);
  _cash : pyval;
  _value : pyval;
  _env : pyval;
  (** the flag of the [threading.Event] *)
  _evt_acct : bool;
  broker : option broker_ref;
  datas : list data_feed;
  oapi : Context;
  oapi_stream : Context;
  (** the attribute [cash], which exists once [start()] has set it *)
  cash : option pyval;
  (** the items of the [queue.Queue] that [broker_threads] creates before
      it starts the thread that reads it *)
  q_account : list pyval;
}.

Definition set_notifs (x : list (option notification)) (s : OandaV20Store) :=
  mkStore (p s) x (_cash s) (_value s) (_env s) (_evt_acct s) (broker s)
          (datas s) (oapi s) (oapi_stream s) (cash s) (q_account s).
Definition set__cash (x : pyval) (s : OandaV20Store) :=
  mkStore (p s) (notifs s) x (_value s) (_env s) (_evt_acct s) (broker s)
          (datas s) (oapi s) (oapi_stream s) (cash s) (q_account s).
Definition set__value (x : pyval) (s : OandaV20Store) :=
  mkStore (p s) (notifs s) (_cash s) x (_env s) (_evt_acct s) (broker s)
          (datas s) (oapi s) (oapi_stream s) (cash s) (q_account s).
Definition set__env (x : pyval) (s : OandaV20Store) :=
  mkStore (p s) (notifs s) (_cash s) (_value s) x (_evt_acct s) (broker s)
          (datas s) (oapi s) (oapi_stream s) (cash s) (q_account s).
Definition set__evt_acct (x : bool) (s : OandaV20Store) :=
  mkStore (p s) (notifs s) (_cash s) (_value s) (_env s) x (broker s)
          (datas s) (oapi s) (oapi_stream s) (cash s) (q_account s).
Definition set_broker (x : option broker_ref) (s : OandaV20Store) :=
  mkStore (p s) (notifs s) (_cash s) (_value s) (_env s) (_evt_acct s) x
          (datas s) (oapi s) (oapi_stream s) (cash s) (q_account s).
Definition set_datas (x : list data_feed) (s : OandaV20Store) :=
  mkStore (p s) (notifs s) (_cash s) (_value s) (_env s) (_evt_acct s) (broker s)
          x (oapi s) (oapi_stream s) (cash s) (q_account s).
Definition set_cash (x : option pyval) (s : OandaV20Store) :=
  mkStore (p s) (notifs s) (_cash s) (_value s) (_env s) (_evt_acct s) (broker s)
          (datas s) (oapi s) (oapi_stream s) x (q_account s).
Definition set_q_account (x : list pyval) (s : OandaV20Store) :=
  mkStore (p s) (notifs s) (_cash s) (_value s) (_env s) (_evt_acct s) (broker s)
          (datas s) (oapi s) (oapi_stream s) (cash s) x.

(** ** What a method does besides changing the store *)

(** The thread targets, with the keyword arguments they are started with. *)
Inductive target :=
  | Target_t_streaming_listener (tmout : option Q)
  | Target_t_streaming_events (tmout : option Q)
  | Target_t_account.

Inductive effect :=
  (** [t = threading.Thread(target=...); t.daemon = ...; t.start()] *)
  | ThreadStart (t : target) (daemon : bool)
  (** [self.broker.data_started(data)] *)
  | DataStarted (b : broker_ref) (d : data_feed)
  (** [self.oapi.account.summary(account)] *)
  | AccountSummary (acct : string)
  (** [self._evt_acct.wait(timeout)] *)
  | EventWait (timeout : Q).

(** A method body: from the store to what it returns or raises, the store
    it leaves and what else it did, in order. An exception does not undo
    what was done before it. *)
Definition M (A : Type) : Type :=
  OandaV20Store → result A * OandaV20Store * list effect.

#[export] Instance M_ret : MRet M := λ A a s, (Ok a, s, []).

#[export] Instance M_bind : MBind M := λ A B f m s,
  match m s with
  | (Ok a, s1, t1) => let '(r, s2, t2) := f a s1 in (r, s2, t1 ++ t2)
  | (Raise e, s1, t1) => (Raise e, s1, t1)
  end.

Definition raise {A} (e : exn) : M A := λ s, (Raise e, s, []).
Definition gets {A} (f : OandaV20Store → A) : M A := λ s, (Ok (f s), s, []).
Definition modify (f : OandaV20Store → OandaV20Store) : M unit :=
  λ s, (Ok tt, f s, []).
Definition emit (x : effect) : M unit := λ s, (Ok tt, s, [x]).
Definition lift {A} (r : result A) : M A := λ s, (r, s, []).

(** [try: body except ...: handler]: [handler e] is [None] when no [except]
    clause matches [e], which then propagates. *)
Definition try_except {A} (body : M A) (handler : exn → option (M A)) : M A :=
  λ s,
  match body s with
  | (Ok a, s1, t1) => (Ok a, s1, t1)
  | (Raise e, s1, t1) =>
      match handler e with
      | Some h => let '(r, s2, t2) := h s1 in (r, s2, t1 ++ t2)
      | None => (Raise e, s1, t1)
      end
  end.

(** ** [__init__] *)

(** [l[i]] for an index that is not negative *)
Definition getitem {A} (l : list A) (i : nat) : result A :=
  match l !! i with
  | Some x => Ok x
  | None => Raise (Exn IndexError "list index out of range")
  end.

(** [int(b)] of a [bool] *)
Definition int_of_bool (b : bool) : nat := if b then 1%nat else 0%nat.

(** [v20.Context(host, port=443, ssl=True, token=tok, datetime_format="UNIX")] *)
Definition v20_Context (host tok : string) : Context :=
  {| hostname := host; port := 443; ssl := true; ctx_token := tok;
     datetime_format := "UNIX" |}.

(** [__init__], on the parameters that the metaclass has bound to [self.p]. *)
Definition __init__ (prm : params) : result OandaV20Store :=
  match getitem _OAPI_URL (int_of_bool (practice prm)) with
  | Raise e => Raise e
  | Ok url =>
      match getitem _OAPI_STREAM_URL (int_of_bool (practice prm)) with
      | Raise e => Raise e
      | Ok stream_url =>
          Ok {| p := prm;
                notifs := [];
                _cash := PyFloat 0;
                _value := PyFloat 0;
                _env := PyNone;
                _evt_acct := false;
                broker := None;
                datas := [];
                oapi := v20_Context url (token prm);
                oapi_stream := v20_Context stream_url (token prm);
                cash := None;
                q_account := [] |}
      end
  end.

(** ** The operations that are not implemented *)

Definition stop : M unit :=
  raise (Exn Exception "Not implemented").

Definition get_positions : M pyval :=
  raise (Exn Exception "Not implemented").

Definition get_instrument (dataname : pyval) : M pyval :=
  raise (Exn Exception "Not implemented").

Definition candles (dataname dtbegin dtend timeframe compression
                    candleFormat includeFirst : pyval) : M pyval :=
  raise (Exn Exception "Not implemented").

Definition streaming_prices (dataname : pyval) (tmout : option Q) : M pyval :=
  raise (Exn Exception "Not implemented").

Definition order_create (order stopside takeside : pyval)
                        (kwargs : list (string * pyval)) : M pyval :=
  raise (Exn Exception "Not implemented").

Definition order_cancel (order : pyval) : M pyval :=
  raise (Exn Exception "Not implemented").

(** ** Cash and value *)

Definition get_cash : M pyval := gets _cash.
Definition get_value : M pyval := gets _value.

(** ** Notifications *)

(** [self.notifs.append((msg, args, kwargs))] *)
Definition put_notification (msg : pyval) (args : list pyval)
                            (kwargs : list (string * pyval)) : M unit :=
  modify (λ s, set_notifs (notifs s ++ [Some (msg, args, kwargs)]) s).

(** A value together with the equation that names it, for the recursion
    below to know what was popped. *)
Definition inspect {A} (a : A) : {b : A | a = b} := exist _ a eq_refl.

(** [[x for x in iter(self.notifs.popleft, None)]]: [popleft] is called
    until it returns the mark, and what it returned before is collected.
    The deque is shared with the threads that call [put_notification]:
    [others] is what they append while the loop runs, one batch before each
    call of [popleft] (a batch may be empty, and no batch is left when the
    other threads are idle). [popleft] on an empty deque raises. *)
Equations? popleft_until_mark (others : list (list notification))
    (q : list (option notification))
    : result (list notification) * list (option notification)
    by wf (length q + length (concat others))%nat lt :=
  popleft_until_mark others q
    with inspect (q ++ (Some <$> hd [] others)) => {
    | exist _ [] _ => (Raise (Exn IndexError "pop from an empty deque"), []);
    | exist _ (None :: q') _ => (Ok [], q');
    | exist _ (Some x :: q') _ with popleft_until_mark (tl others) q' => {
        | (Ok xs, q'') => (Ok (x :: xs), q'');
        | (Raise e, q'') => (Raise e, q'') } }.
Proof.
  apply (f_equal length) in e. rewrite length_app, length_fmap in e.
  simpl in e. destruct others as [|b others]; simpl in *;
    rewrite ?length_app; lia.
Qed.

(** [get_notifications]: append the mark, then drain up to it. *)
Definition get_notifications (others : list (list notification))
    : M (list notification) :=
  λ s,
  let '(r, q) := popleft_until_mark others (notifs s ++ [None]) in
  (r, set_notifs q s, []).

(** What the other threads have appended by the time the loop has called
    [popleft] [n] times. *)
Definition appended (n : nat) (others : list (list notification))
    : list notification :=
  concat (take n others).

(** [put_notification] for each notification of a list, oldest first. *)
Fixpoint put_notifications (xs : list notification) : M unit :=
  match xs with
  | [] => mret tt
  | (msg, args, kwargs) :: xs' =>
      put_notification msg args kwargs;; put_notifications xs'
  end.

(** The deque holds notifications only: no mark is left in it. *)
Definition no_mark (s : OandaV20Store) : Prop :=
  ∃ xs, notifs s = Some <$> xs.

(** ** The account poller *)

(** What the broker's API answers in one iteration of the poller.
    [v20] is not part of this repository: an account object is known by
    what reading its two attributes does, a response by what
    [response.get('account')] does, and the call of
    [self.oapi.account.summary] by whether it returns a response. *)
Record Account := {
  marginAvailable : result pyval;
  balance : result pyval;
}.

Record Response := { get_account : result Account }.

(** The surroundings of one iteration: [puts] is what other threads put on
    [q_account] before the [get] of this iteration returns, [summary] is
    what the API call of this iteration does, if it is made. *)
Record cycle_input := {
  puts : list pyval;
  summary : result Response;
}.

(** [self.q_account.get(timeout=self.p.account_tmout)]: the oldest item, or
    [queue.Empty] when the timeout passes with nothing to get. *)
Definition q_account_get (arrived : list pyval) : M pyval :=
  λ s,
  match q_account s ++ arrived with
  | msg :: q => (Ok msg, set_q_account q s, [])
  | [] => (Raise (Exn Empty ""), set_q_account [] s, [])
  end.

(** How an iteration of [while True] ends: with the next iteration (the
    end of the body or [continue]) or with [break]. An exception that no
    [except] clause catches is the [Raise] of [M]. *)
Inductive loop_ctl := loop_next | loop_break.

(** The body of the [while True] of [_t_account]. *)
Definition _t_account_body (i : cycle_input) : M loop_ctl :=
  ctl ← try_except
          (msg ← q_account_get (puts i);
           if is_None msg then mret loop_break   (* end of thread *)
           else mret loop_next)
          (λ e, if is_Empty e then Some (mret loop_next)   (* tmout *)
                else None);
  match ctl with
  | loop_break => mret loop_break
  | loop_next =>
      fetched ← try_except
                  (acct ← gets (λ s, account (p s));
                   emit (AccountSummary acct);;
                   response ← lift (summary i);
                   accinfo ← lift (get_account response);
                   mret (Some accinfo))
                  (λ e, Some (put_notification (PyExn e) [] [];;
                              mret None));
      match fetched with
      | None => mret loop_next   (* continue *)
      | Some accinfo =>
          try_except
            (c ← lift (marginAvailable accinfo);
             modify (set__cash c);;
             v ← lift (balance accinfo);
             modify (set__value v))
            (λ e, if is_KeyError e then Some (mret tt) else None);;
          modify (set__evt_acct true);;
          mret loop_next
      end
  end.

(** Where the thread is after the iterations it has run. *)
Inductive thread_state :=
  | in_loop    (* about to start another iteration *)
  | returned.  (* left the loop by [break]: the thread function returned *)

(** [_t_account], for as many iterations as there are inputs. An uncaught
    exception ends the thread: it is the [Raise] of [M]. *)
Fixpoint _t_account (inputs : list cycle_input) : M thread_state :=
  match inputs with
  | [] => mret in_loop
  | i :: inputs' =>
      ctl ← _t_account_body i;
      match ctl with
      | loop_break => mret returned
      | loop_next => _t_account inputs'
      end
  end.

(** The message that the [get] of an iteration returns, if any. *)
Definition next_msg (i : cycle_input) (s : OandaV20Store) : option pyval :=
  head (q_account s ++ puts i).

(** The [try] block of the fetch: the account, or the exception raised by
    [summary] or by [response.get]. *)
Definition fetch (i : cycle_input) : result Account :=
  match summary i with
  | Ok response => get_account response
  | Raise e => Raise e
  end.

(** The store once the [get] of an iteration is over. *)
Definition after_get (i : cycle_input) (s : OandaV20Store) : OandaV20Store :=
  set_q_account (tail (q_account s ++ puts i)) s.

(** Reading the two fields in the last [try] block raises nothing that its
    [except KeyError] lets through. *)
Definition fields_benign (acc : Account) : bool :=
  match marginAvailable acc with
  | Raise e => is_KeyError e
  | Ok _ => match balance acc with
            | Raise e => is_KeyError e
            | Ok _ => true
            end
  end.

Definition polite (i : cycle_input) : bool :=
  match fetch i with
  | Ok acc => fields_benign acc
  | Raise _ => true
  end.

(** ** [start] and the threads *)

(** [streaming_events]: two daemon threads on a queue of their own, which
    is returned (nothing is ever put on it). *)
Definition streaming_events (tmout : option Q) : M (list pyval) :=
  emit (ThreadStart (Target_t_streaming_listener tmout) true);;
  emit (ThreadStart (Target_t_streaming_events tmout) true);;
  mret [].

(** [self._evt_acct.wait(timeout)], with the poller running beside the
    caller: [window] is the iterations of the poller that end before the
    timeout has passed. The caller is released as soon as the flag is set,
    and otherwise when the timeout has passed; [wait] returns the flag. *)
Fixpoint poller_until_set (window : list cycle_input) : M bool :=
  λ s,
  if _evt_acct s then (Ok true, s, [])
  else
    match window with
    | [] => (Ok false, s, [])
    | i :: window' =>
        match _t_account_body i s with
        | (Ok loop_next, s1, t1) =>
            let '(r, s2, t2) := poller_until_set window' s1 in
            (r, s2, t1 ++ t2)
        | (_, s1, t1) => (Ok (_evt_acct s1), s1, t1)   (* the poller ended *)
        end
    end.

Definition _evt_acct_wait (timeout : Q) (window : list cycle_input) : M bool :=
  emit (EventWait timeout);;
  poller_until_set window.

Definition broker_threads (window : list cycle_input) : M unit :=
  modify (set_q_account []);;
  modify (λ s, set_q_account (q_account s ++ [PyBool true]) s);;
  emit (ThreadStart Target_t_account true);;
  (* Wait once for the values to be set *)
  timeout ← gets (λ s, account_tmout (p s));
  _evt_acct_wait timeout window;;
  mret tt.

Definition start (data : option data_feed) (broker_ : option broker_ref)
                 (window : list cycle_input) : M unit :=
  match data, broker_ with
  | None, None =>
      modify (set_cash (Some PyNone))
  | Some d, _ =>
      modify (set__env (feed_env d));;
      modify (λ s, set_datas (datas s ++ [d]) s);;
      b ← gets broker;
      match b with
      | Some b => emit (DataStarted b d)
      | None => mret tt
      end
  | None, Some b =>
      modify (set_broker (Some b));;
      streaming_events None;;
      broker_threads window
  end.

(** The store and the effects of [start] with a broker, up to the wait. *)
Definition broker_started (b : broker_ref) (s : OandaV20Store) : OandaV20Store :=
  set_q_account [PyBool true] (set_broker (Some b) s).

Definition broker_start_effects (s : OandaV20Store) : list effect :=
  [ ThreadStart (Target_t_streaming_listener None) true;
    ThreadStart (Target_t_streaming_events None) true;
    ThreadStart Target_t_account true;
    EventWait (account_tmout (p s)) ].

(** What the poller never assigns. *)
Definition poller_frame (s s' : OandaV20Store) : Prop :=
  p s' = p s ∧ _env s' = _env s ∧ broker s' = broker s ∧ datas s' = datas s
  ∧ oapi s' = oapi s ∧ oapi_stream s' = oapi_stream s ∧ cash s' = cash s.

(** ** The metaclass [MetaSingleton] *)

Module MetaSingleton.

(** The keyword arguments of a call of the class: the parameters that the
    caller sets. *)
Record kwargs := {
  kw_token : option string;
  kw_account : option string;
  kw_practice : option bool;
  kw_account_tmout : option Q;
}.

(** [MetaParams] (backtrader) binds the parameters: the value of the
    call where there is one, the default of the class body otherwise. *)
Definition bind_params (kw : kwargs) : params :=
  {| token := default (token default_params) (kw_token kw);
     account := default (account default_params) (kw_account kw);
     practice := default (practice default_params) (kw_practice kw);
     account_tmout :=
       default (account_tmout default_params) (kw_account_tmout kw) |}.

(** The class object: its attribute [_singleton] and the instances made
    so far. An instance is known by its position in [instances], so that
    two references are the same object exactly when they are equal. *)
Record class_state := {
  _singleton : option nat;
  instances : list OandaV20Store;
}.

(** The metaclass's [__call__]: a call of the class. *)
Definition __call__ (kw : kwargs) (c : class_state)
    : result nat * class_state :=
  match _singleton c with
  | None =>
      match __init__ (bind_params kw) with
      | Ok obj =>
          let r := length (instances c) in
          (Ok r, {| _singleton := Some r; instances := instances c ++ [obj] |})
      | Raise e => (Raise e, c)
      end
  | Some r => (Ok r, c)
  end.

(** The class as the metaclass's [__init__] leaves it. *)
Definition __init__ : class_state :=
  {| _singleton := None; instances := [] |}.

(** Calls of the class one after the other, with what each returned. *)
Fixpoint calls (kws : list kwargs) (c : class_state)
    : list (result nat) * class_state :=
  match kws with
  | [] => ([], c)
  | kw :: kws' =>
      let '(r, c1) := __call__ kw c in
      let '(rs, c2) := calls kws' c1 in
      (r :: rs, c2)
  end.

End MetaSingleton.

(** ** Stores, accounts and iterations for the examples *)

Definition store0 : OandaV20Store :=
  {| p := default_params;
     notifs := [];
     _cash := PyFloat 0;
     _value := PyFloat 0;
     _env := PyNone;
     _evt_acct := false;
     broker := None;
     datas := [];
     oapi := v20_Context "api-fxtrade.oanda.com" "";
     oapi_stream := v20_Context "stream-fxtrade.oanda.com" "";
     cash := None;
     q_account := [] |}.

(** A data feed and a broker, for the examples. *)
Definition feed0 : data_feed := {| feed_id := 0; feed_env := PyNone |}.
Definition broker0 : broker_ref := 0%nat.

(** An account with both fields. *)
Definition account_ok : Account :=
  {| marginAvailable := Ok (PyFloat (100 # 1));
     balance := Ok (PyFloat (250 # 1)) |}.

(** An account whose [marginAvailable] can be read and whose [balance]
    raises [KeyError]. *)
Definition account_without_balance : Account :=
  {| marginAvailable := Ok (PyFloat (100 # 1));
     balance := Raise (Exn KeyError "balance") |}.

(** An account of which no field can be read. *)
Definition account_without_fields : Account :=
  {| marginAvailable := Raise (Exn KeyError "marginAvailable");
     balance := Raise (Exn KeyError "balance") |}.

(** An iteration that times out on its queue and fetches [acc]. *)
Definition fetching (acc : Account) : cycle_input :=
  {| puts := []; summary := Ok {| get_account := Ok acc |} |}.

(** An iteration that gets the message [None]. *)
Definition told_to_end : cycle_input :=
  {| puts := [PyNone]; summary := Raise (Exn Exception "not called") |}.

(** A notification with a text for message. *)
Definition note (text : string) : notification := (PyStr text, [], []).

(** An iteration whose API call raises. *)
Definition api_down : exn :=
  Exn (OtherError "V20ConnectionError") "connection refused".

Definition failing : cycle_input :=
  {| puts := []; summary := Raise api_down |}.

(** ** The streaming listener *)

(** A thread body that prints: what it returns or raises, the store it
    leaves, and what it wrote to standard output, in order. *)
Definition Printing (A : Type) : Type :=
  OandaV20Store → result A * OandaV20Store * list pyval.

(** [_transaction]: [print(trans)], and nothing else yet. *)
Definition _transaction (trans : pyval) : Printing unit :=
  λ s, (Ok tt, s, [trans]).

(** [_t_streaming_listener], for as many iterations as [q.get()] returns
    items: the [get] has no timeout, and [got] is what it returns, one item
    for each iteration. *)
Fixpoint _t_streaming_listener (got : list pyval) : Printing thread_state :=
  match got with
  | [] => λ s, (Ok in_loop, s, [])
  | trans :: got' =>
      λ s,
      match _transaction trans s with
      | (Ok _, s1, out1) =>
          let '(r, s2, out2) := _t_streaming_listener got' s1 in
          (r, s2, out1 ++ out2)
      | (Raise e, s1, out1) => (Raise e, s1, out1)
      end
  end.

(** ** Calls in any order *)

(** A call of a method of the store by its user, or an iteration of the
    poller thread. *)
Inductive call :=
  | Call_start (data : option data_feed) (broker_ : option broker_ref)
               (window : list cycle_input)
  | Call_stop
  | Call_put_notification (msg : pyval) (args : list pyval)
                          (kwargs : list (string * pyval))
  | Call_get_notifications (others : list (list notification))
  | Call_get_positions
  | Call_get_instrument (dataname : pyval)
  | Call_candles (dataname dtbegin dtend timeframe compression
                  candleFormat includeFirst : pyval)
  | Call_get_cash
  | Call_get_value
  | Call_streaming_events (tmout : option Q)
  | Call_streaming_prices (dataname : pyval) (tmout : option Q)
  | Call_broker_threads (window : list cycle_input)
  | Call_order_create (order stopside takeside : pyval)
                      (kwargs : list (string * pyval))
  | Call_order_cancel (order : pyval)
  | Poller_iteration (i : cycle_input).

(** The store that a call leaves, whether it returns or raises. *)
Definition after_call (c : call) (s : OandaV20Store) : OandaV20Store :=
  match c with
  | Call_start data broker_ window => (start data broker_ window s).1.2
  | Call_stop => (stop s).1.2
  | Call_put_notification msg args kwargs =>
      (put_notification msg args kwargs s).1.2
  | Call_get_notifications others => (get_notifications others s).1.2
  | Call_get_positions => (get_positions s).1.2
  | Call_get_instrument dataname => (get_instrument dataname s).1.2
  | Call_candles a b c d e f g => (candles a b c d e f g s).1.2
  | Call_get_cash => (get_cash s).1.2
  | Call_get_value => (get_value s).1.2
  | Call_streaming_events tmout => (streaming_events tmout s).1.2
  | Call_streaming_prices dataname tmout =>
      (streaming_prices dataname tmout s).1.2
  | Call_broker_threads window => (broker_threads window s).1.2
  | Call_order_create a b c d => (order_create a b c d s).1.2
  | Call_order_cancel order => (order_cancel order s).1.2
  | Poller_iteration i => (_t_account_body i s).1.2
  end.

Definition after_calls (cs : list call) (s : OandaV20Store) : OandaV20Store :=
  foldl (λ s c, after_call c s) s cs.

(** A call during which no iteration of the poller runs. *)
Definition without_poller (c : call) : bool :=
  match c with
  | Poller_iteration _ => false
  | Call_start _ _ window | Call_broker_threads window =>
      match window with [] => true | _ => false end
  | _ => true
  end.

(** A call of [get_notifications]. *)
Definition is_get_notifications (c : call) : bool :=
  match c with
  | Call_get_notifications _ => true
  | _ => false
  end.

(** What no call undoes: the parameters and the two contexts stay, a flag
    that is set stays set, a deque without mark stays without mark, the
    data feeds stay where they are in [datas], a broker stays
    registered. *)
Definition evolves (s s' : OandaV20Store) : Prop :=
  p s' = p s
  ∧ oapi s' = oapi s
  ∧ oapi_stream s' = oapi_stream s
  ∧ (_evt_acct s = true → _evt_acct s' = true)
  ∧ (no_mark s → no_mark s')
  ∧ datas s `prefix_of` datas s'
  ∧ (is_Some (broker s) → is_Some (broker s')).

(** ** Observations of the deque and of the poller *)

(** The notifications of a deque, oldest first, and the number of its
    marks. *)
Definition pending (q : list (option notification)) : list notification :=
  omap id q.

Fixpoint marks (q : list (option notification)) : nat :=
  match q with
  | [] => 0%nat
  | None :: q' => S (marks q')
  | Some _ :: q' => marks q'
  end.

(** The notification that the poller makes of an exception. *)
Definition notified (e : exn) : notification := (PyExn e, [], []).

(** [start(data=d)] for each feed of a list, in order. *)
Fixpoint start_feeds (ds : list data_feed) : M unit :=
  match ds with
  | [] => mret tt
  | d :: ds' => start (Some d) None [];; start_feeds ds'
  end.

(** * Properties *)

(** ** Dictionaries *)

Lemma dict_display_list_to_map `{Countable K} {V} (items : list (K * V)) :
  dict_display items = list_to_map (reverse items).
Proof.
  unfold dict_display.
  assert (G : ∀ (d : gmap K V),
             foldl (λ d kv, <[kv.1 := kv.2]> d) d items
             = foldr (λ kv d, <[kv.1 := kv.2]> d) d (reverse items)).
  { induction items as [|kv items IH]; intros d; [done|].
    rewrite reverse_cons, foldr_app. simpl. apply IH. }
  rewrite G. reflexivity.
Qed.

Lemma dict_display_lookup_Some `{Countable K} {V} (items : list (K * V)) k v :
  NoDup items.*1 → (k, v) ∈ items → dict_display items !! k = Some v.
Proof.
  intros Hnd Hin. rewrite dict_display_list_to_map.
  apply elem_of_list_to_map.
  - by rewrite fmap_reverse, reverse_Permutation.
  - by apply elem_of_reverse.
Qed.

Lemma dict_display_lookup_None `{Countable K} {V} (items : list (K * V)) k :
  k ∉ items.*1 → dict_display items !! k = None.
Proof.
  intros Hin. rewrite dict_display_list_to_map.
  apply not_elem_of_list_to_map.
  rewrite fmap_reverse. by rewrite elem_of_reverse.
Qed.

(** ** The granularity table *)

Section Granularities_lookup.

Variables Seconds Minutes Days Weeks Months : Z.
Hypothesis TimeFrame_distinct : NoDup [Seconds; Minutes; Days; Weeks; Months].

Local Abbreviation items :=
  (_GRANULARITIES_items Seconds Minutes Days Weeks Months).

(** No pair is written twice in the table. *)
Lemma _GRANULARITIES_keys_NoDup : NoDup items.*1.
Proof.
  assert (D := TimeFrame_distinct).
  rewrite !NoDup_cons, !not_elem_of_cons in D. destruct_and!.
  unfold _GRANULARITIES_items. simpl.
  repeat (apply NoDup_cons_2;
          [rewrite ?not_elem_of_cons; repeat split;
           try apply not_elem_of_nil; congruence|]).
  apply NoDup_nil_2.
Qed.

(** C1: for every pair that the table lists, [get_granularity] returns
    the code that the table gives for it; for every pair that the table
    does not list it returns [None]. *)
Theorem get_granularity_table :
  (∀ timeframe compression code,
      ((timeframe, compression), code) ∈ items →
      get_granularity Seconds Minutes Days Weeks Months
                      timeframe compression = Some code)
  ∧ (∀ timeframe compression,
      (timeframe, compression) ∉ items.*1 →
      get_granularity Seconds Minutes Days Weeks Months
                      timeframe compression = None).
Proof.
  split.
  - intros tf c code Hin. unfold get_granularity, _GRANULARITIES.
    apply dict_display_lookup_Some; [apply _GRANULARITIES_keys_NoDup|done].
  - intros tf c Hout. unfold get_granularity, _GRANULARITIES.
    by apply dict_display_lookup_None.
Qed.

End Granularities_lookup.

Example get_granularity_H1 : bt_get_granularity TimeFrame.Minutes 60 = Some "H1".
Proof. vm_compute. reflexivity. Qed.

Example get_granularity_unmapped : bt_get_granularity TimeFrame.Minutes 7 = None.
Proof. vm_compute. reflexivity. Qed.

(** The table gives ["M3"] for two minutes as for three. *)
Example get_granularity_two_minutes :
  bt_get_granularity TimeFrame.Minutes 2 = Some "M3"
  ∧ bt_get_granularity TimeFrame.Minutes 3 = Some "M3".
Proof. split; vm_compute; reflexivity. Qed.

(** ** The unimplemented operations *)

(** C2: whatever the store and the arguments, each of [order_create],
    [order_cancel], [get_positions], [get_instrument], [candles],
    [streaming_prices] and [stop] raises [Exception("Not implemented")],
    and leaves the store as it was, having done nothing else. *)
Theorem unimplemented_operations_raise (s : OandaV20Store) :
  let not_implemented {A} : result A * OandaV20Store * list effect :=
    (Raise (Exn Exception "Not implemented"), s, []) in
  (∀ order stopside takeside kwargs,
      order_create order stopside takeside kwargs s = not_implemented)
  ∧ (∀ order, order_cancel order s = not_implemented)
  ∧ get_positions s = not_implemented
  ∧ (∀ dataname, get_instrument dataname s = not_implemented)
  ∧ (∀ dataname dtbegin dtend timeframe compression candleFormat includeFirst,
      candles dataname dtbegin dtend timeframe compression
              candleFormat includeFirst s = not_implemented)
  ∧ (∀ dataname tmout, streaming_prices dataname tmout s = not_implemented)
  ∧ stop s = not_implemented.
Proof. repeat split. Qed.

(** ** Notifications *)

(** One notification is pending; another thread appends a second one
    before the first [popleft] and a third one before the second. *)
Example get_notifications_while_appending :
  get_notifications [[note "b"]; [note "c"]] (set_notifs [Some (note "a")] store0)
  = (Ok [note "a"], set_notifs [Some (note "b"); Some (note "c")] store0, []).
Proof. reflexivity. Qed.

(** A mark that was left in the deque would cut the answer short. *)
Example get_notifications_with_stale_mark :
  get_notifications [] (set_notifs [Some (note "a"); None; Some (note "b")] store0)
  = (Ok [note "a"], set_notifs [Some (note "b"); None] store0, []).
Proof. reflexivity. Qed.

Lemma popleft_until_mark_eq others q :
  popleft_until_mark others q =
  match q ++ (Some <$> hd [] others) with
  | [] => (Raise (Exn IndexError "pop from an empty deque"), [])
  | None :: q' => (Ok [], q')
  | Some x :: q' =>
      match popleft_until_mark (tl others) q' with
      | (Ok xs, q'') => (Ok (x :: xs), q'')
      | (Raise e, q'') => (Raise e, q'')
      end
  end.
Proof.
  funelim (popleft_until_mark others q);
    match goal with E : _ ++ _ = _ |- _ => rewrite E end;
    [reflexivity|reflexivity|..]; by rewrite Heq.
Qed.

Lemma appended_S n b others :
  appended (S n) (b :: others) = b ++ appended n others.
Proof. reflexivity. Qed.

(** The loop returns what is before the first mark, and leaves what is
    behind it, with what arrived in the meantime. *)
Lemma popleft_until_mark_drains xs : ∀ others rest,
  popleft_until_mark others ((Some <$> xs) ++ None :: rest)
  = (Ok xs, rest ++ (Some <$> appended (S (length xs)) others)).
Proof.
  induction xs as [|x xs IH]; intros others rest;
    rewrite popleft_until_mark_eq; simpl.
  - destruct others as [|b others]; simpl; [done|].
    unfold appended. simpl. by rewrite app_nil_r.
  - rewrite <- app_assoc. simpl. rewrite IH.
    destruct others as [|b others]; simpl.
    + by rewrite !app_nil_r.
    + rewrite appended_S, fmap_app, app_assoc. done.
Qed.

Lemma put_notifications_spec xs : ∀ s,
  put_notifications xs s = (Ok tt, set_notifs (notifs s ++ (Some <$> xs)) s, []).
Proof.
  induction xs as [|[[msg args] kwargs] xs IH]; intros s; simpl.
  - unfold mret, M_ret. rewrite app_nil_r. by destruct s.
  - unfold mbind, M_bind, put_notification, modify. rewrite IH. simpl.
    by rewrite <- app_assoc.
Qed.

Lemma get_notifications_spec others s xs :
  notifs s = Some <$> xs →
  get_notifications others s
  = (Ok xs, set_notifs (Some <$> appended (S (length xs)) others) s, []).
Proof.
  intros Hq. unfold get_notifications. rewrite Hq.
  by rewrite popleft_until_mark_drains.
Qed.

(** C3: on a deque that holds notifications only, [get_notifications]
    returns the notifications that were in the deque when it appended its
    mark, oldest first, and leaves in the deque only what other threads
    appended after the mark; a second call returns exactly what was
    appended after the first call's mark (while the first call ran, and
    between the two calls), and nothing of what the first call returned. *)
Theorem get_notifications_twice (s : OandaV20Store) (xs : list notification)
    (others1 : list (list notification)) (between : list notification)
    (others2 : list (list notification)) :
  notifs s = Some <$> xs →
  let after1 := appended (S (length xs)) others1 in
  let after2 := appended (S (length (after1 ++ between))) others2 in
  get_notifications others1 s = (Ok xs, set_notifs (Some <$> after1) s, [])
  ∧ (first ← get_notifications others1;
     put_notifications between;;
     second ← get_notifications others2;
     mret (first, second)) s
    = (Ok (xs, after1 ++ between), set_notifs (Some <$> after2) s, []).
Proof.
  intros Hq after1 after2. split; [by apply get_notifications_spec|].
  unfold mbind, M_bind. rewrite (get_notifications_spec _ _ xs Hq).
  rewrite put_notifications_spec. simpl.
  rewrite (get_notifications_spec _ _ (after1 ++ between)).
  - done.
  - simpl. by rewrite fmap_app.
Qed.

Ltac unfold_M :=
  unfold _t_account_body, try_except, q_account_get, put_notification,
    get_cash, get_value, gets, modify, emit, lift, raise,
    mbind, M_bind, mret, M_ret in *.

Lemma _t_account_body_break i s :
  next_msg i s = Some PyNone →
  _t_account_body i s = (Ok loop_break, after_get i s, []).
Proof.
  unfold next_msg, after_get. intros Hm. unfold_M.
  destruct (q_account s ++ puts i) as [|m q]; simplify_eq/=. done.
Qed.

Lemma _t_account_body_fetch_raises i s e :
  next_msg i s ≠ Some PyNone →
  fetch i = Raise e →
  _t_account_body i s
  = (Ok loop_next,
     set_notifs (notifs s ++ [Some (PyExn e, [], [])]) (after_get i s),
     [AccountSummary (account (p s))]).
Proof.
  unfold next_msg, after_get, fetch. intros Hm Hf. unfold_M.
  destruct (q_account s ++ puts i) as [|m q]; simpl in *.
  - destruct (summary i) as [r|e']; simplify_eq/=; [rewrite Hf|]; done.
  - destruct m; try done;
    destruct (summary i) as [r|e']; simplify_eq/=; try rewrite Hf; done.
Qed.

Lemma _t_account_body_cases i s :
  _t_account_body i s =
  match next_msg i s with
  | Some PyNone => (Ok loop_break, after_get i s, [])
  | _ =>
      let t := [AccountSummary (account (p s))] in
      match fetch i with
      | Raise e =>
          (Ok loop_next,
           set_notifs (notifs s ++ [Some (PyExn e, [], [])]) (after_get i s), t)
      | Ok acc =>
          match marginAvailable acc with
          | Raise e =>
              if is_KeyError e
              then (Ok loop_next, set__evt_acct true (after_get i s), t)
              else (Raise e, after_get i s, t)
          | Ok c =>
              match balance acc with
              | Raise e =>
                  if is_KeyError e
                  then (Ok loop_next,
                        set__evt_acct true (set__cash c (after_get i s)), t)
                  else (Raise e, set__cash c (after_get i s), t)
              | Ok v =>
                  (Ok loop_next,
                   set__evt_acct true
                     (set__value v (set__cash c (after_get i s))), t)
              end
          end
      end
  end.
Proof.
  unfold next_msg, after_get, fetch. unfold_M.
  destruct (q_account s ++ puts i) as [|m q]; simpl;
    [|destruct m; simpl; try done];
    (destruct (summary i) as [r|e0]; simpl; [|done];
     destruct (get_account r) as [acc|e0]; simpl; [|done];
     destruct (marginAvailable acc) as [c|err]; simpl;
     [destruct (balance acc) as [v|err]; simpl; [done|]|];
     destruct (is_KeyError err); done).
Qed.

Lemma __init___default : __init__ default_params = Ok store0.
Proof. reflexivity. Qed.

Lemma __init___total prm : ∃ s, __init__ prm = Ok s ∧ p s = prm.
Proof. destruct prm as [tk ac [] tm]; eexists; split; reflexivity. Qed.

(** The cases of the two [try] blocks that follow the [get]. *)
Ltac by_body_cases i :=
  let acc := fresh "acc" in
  let err := fresh "err" in
  destruct (fetch i) as [acc|err]; [|done];
  destruct (marginAvailable acc) as [?|err];
  [destruct (balance acc) as [?|err]; [done|]|];
  destruct (is_KeyError err); done.

(** Every iteration that does not get [None] calls the API, once, and
    before anything else that can be seen from outside. *)
Lemma _t_account_body_fetches i s :
  next_msg i s ≠ Some PyNone →
  (_t_account_body i s).2 = [AccountSummary (account (p s))].
Proof.
  intros Hm. rewrite _t_account_body_cases.
  destruct (next_msg i s) as [[]|]; try done;
    by_body_cases i.
Qed.

(** An iteration takes from [q_account] the item that it gets, and puts
    nothing on it. *)
Lemma _t_account_body_q_account i s :
  q_account (_t_account_body i s).1.2 = tail (q_account s ++ puts i).
Proof.
  rewrite _t_account_body_cases.
  destruct (next_msg i s) as [[]|]; try done;
    by_body_cases i.
Qed.

(** The parameters are never assigned. *)
Lemma _t_account_body_p i s : p (_t_account_body i s).1.2 = p s.
Proof.
  rewrite _t_account_body_cases.
  destruct (next_msg i s) as [[]|]; try done;
    by_body_cases i.
Qed.

(** C4: in an iteration of the poller that reaches the fetch (what it got
    from its queue is not [None]) and whose fetch raises [e], the
    exception is caught and appended to the notifications as [(e, (), {})],
    [_cash], [_value] and the ready flag stay as they were, and the
    iteration ends with [continue]: the thread goes on with the rest of
    its iterations, and its next iteration, unless it is told to end by
    the message [None], calls the API again. *)
Theorem fetch_error_is_notified (i : cycle_input) (s : OandaV20Store) (e : exn) :
  next_msg i s ≠ Some PyNone →
  fetch i = Raise e →
  ∃ s',
    _t_account_body i s = (Ok loop_next, s', [AccountSummary (account (p s))])
    ∧ notifs s' = notifs s ++ [Some (PyExn e, [], [])]
    ∧ _cash s' = _cash s
    ∧ _value s' = _value s
    ∧ _evt_acct s' = _evt_acct s
    ∧ (∀ inputs,
         _t_account (i :: inputs) s =
         let '(r, s'', t) := _t_account inputs s' in
         (r, s'', AccountSummary (account (p s)) :: t))
    ∧ (∀ j, next_msg j s' ≠ Some PyNone →
         (_t_account_body j s').2 = [AccountSummary (account (p s))]).
Proof.
  intros Hm Hf. eexists. split; [by apply _t_account_body_fetch_raises|].
  repeat split.
  - intros inputs. simpl. unfold mbind at 1, M_bind at 1.
    rewrite (_t_account_body_fetch_raises i s e Hm Hf).
    by destruct (_t_account inputs _) as [[r s''] t].
  - intros j Hj. by rewrite _t_account_body_fetches.
Qed.

(** C5: after an iteration of the poller that reaches the fetch and whose
    fetch succeeds, on an
    account whose [marginAvailable] and [balance] can be read, [get_cash]
    returns the account's [marginAvailable] and [get_value] its
    [balance]. *)
Theorem successful_fetch_sets_cash_and_value (i : cycle_input)
    (s : OandaV20Store) (acc : Account) (c v : pyval) :
  next_msg i s ≠ Some PyNone →
  fetch i = Ok acc →
  marginAvailable acc = Ok c →
  balance acc = Ok v →
  ∃ s',
    _t_account_body i s = (Ok loop_next, s', [AccountSummary (account (p s))])
    ∧ get_cash s' = (Ok c, s', [])
    ∧ get_value s' = (Ok v, s', []).
Proof.
  intros Hm Hf Hc Hv. rewrite _t_account_body_cases, Hf, Hc, Hv.
  destruct (next_msg i s) as [[]|]; try done; eexists; done.
Qed.

(** ** A [KeyError] while the fields are read *)

(** C10, as stated, fails: when the [KeyError] comes from [balance],
    [_cash] has been assigned before. *)
Lemma KeyError_on_balance_after_cash_is_set :
  ∃ s',
    fetch (fetching account_without_balance) = Ok account_without_balance
    ∧ balance account_without_balance = Raise (Exn KeyError "balance")
    ∧ _t_account_body (fetching account_without_balance) store0
      = (Ok loop_next, s', [AccountSummary ""])
    ∧ _evt_acct s' = true
    ∧ _cash store0 = PyFloat 0
    ∧ _cash s' = PyFloat (100 # 1)
    ∧ _cash s' ≠ _cash store0.
Proof. eexists. repeat split. simpl. discriminate. Qed.

(** C10, amended: in an iteration of the poller that reaches the fetch,
    whose fetch succeeds and
    in which reading the account's fields raises a [KeyError], the
    [KeyError] is swallowed and the ready flag is set; [_value] keeps its
    value; [_cash] keeps its value when [marginAvailable] is what raised,
    and is the account's [marginAvailable] when [balance] is what raised.
    So the flag can be set with neither [_cash] nor [_value] ever
    assigned from an account: after one such iteration on the store as
    [__init__] leaves it, both are still [0.0]. *)
Theorem KeyError_is_swallowed (i : cycle_input) (s : OandaV20Store)
    (acc : Account) (e : exn) :
  next_msg i s ≠ Some PyNone →
  fetch i = Ok acc →
  is_KeyError e = true →
  (marginAvailable acc = Raise e →
     ∃ s',
       _t_account_body i s
       = (Ok loop_next, s', [AccountSummary (account (p s))])
       ∧ _evt_acct s' = true
       ∧ _cash s' = _cash s
       ∧ _value s' = _value s)
  ∧ (∀ c, marginAvailable acc = Ok c → balance acc = Raise e →
     ∃ s',
       _t_account_body i s
       = (Ok loop_next, s', [AccountSummary (account (p s))])
       ∧ _evt_acct s' = true
       ∧ _cash s' = c
       ∧ _value s' = _value s)
  ∧ (∃ s',
       _t_account_body (fetching account_without_fields) store0
       = (Ok loop_next, s', [AccountSummary ""])
       ∧ _evt_acct s' = true
       ∧ _cash s' = PyFloat 0
       ∧ _value s' = PyFloat 0).
Proof.
  intros Hm Hf He. repeat split.
  - intros Hc. rewrite _t_account_body_cases, Hf, Hc, He.
    destruct (next_msg i s) as [[]|]; try done; eexists; done.
  - intros c Hc Hv. rewrite _t_account_body_cases, Hf, Hc, Hv, He.
    destruct (next_msg i s) as [[]|]; try done; eexists; done.
  - eexists. repeat split.
Qed.

(** ** The end of the poller *)

(** C7, as stated, fails: the message [None] ends the loop, before the
    thread has started polling and after: below, the thread that [start]
    has started fetches once, gets [None], and returns without running
    its third iteration. *)
Lemma None_ends_the_poller :
  next_msg told_to_end store0 = Some PyNone
  ∧ _t_account [told_to_end] store0 = (Ok returned, store0, [])
  ∧ ∃ s',
      _t_account [fetching account_ok; told_to_end; fetching account_ok]
                 (broker_started broker0 store0)
      = (Ok returned, s', [AccountSummary ""]).
Proof. repeat split. by eexists. Qed.

Lemma _t_account_body_no_break i s :
  next_msg i s ≠ Some PyNone →
  (_t_account_body i s).1.1 ≠ Ok loop_break.
Proof.
  intros Hm. rewrite _t_account_body_cases.
  destruct (next_msg i s) as [[]|]; try done; by_body_cases i.
Qed.

Lemma _t_account_body_polite i s :
  next_msg i s ≠ Some PyNone →
  polite i = true →
  (_t_account_body i s).1.1 = Ok loop_next.
Proof.
  unfold polite, fields_benign. intros Hm Hp. rewrite _t_account_body_cases.
  destruct (next_msg i s) as [[]|]; try done;
    (destruct (fetch i) as [acc|err]; [|done];
     destruct (marginAvailable acc) as [?|err];
     [destruct (balance acc) as [?|err]; [done|]|];
     by rewrite Hp).
Qed.

Lemma next_msg_not_None i s rest :
  Forall (λ msg, msg ≠ PyNone) (q_account s ++ puts i ++ rest) →
  next_msg i s ≠ Some PyNone
  ∧ Forall (λ msg, msg ≠ PyNone) (tail (q_account s ++ puts i) ++ rest).
Proof.
  unfold next_msg. rewrite app_assoc.
  destruct (q_account s ++ puts i) as [|m q]; simpl; [done|].
  intros [Hm Hq]%Forall_cons. split; [congruence|done].
Qed.

Lemma _t_account_not_returned inputs : ∀ s,
  Forall (λ msg, msg ≠ PyNone) (q_account s ++ concat (puts <$> inputs)) →
  (_t_account inputs s).1.1 ≠ Ok returned.
Proof.
  induction inputs as [|i inputs IH]; intros s Hq; [done|].
  simpl in *. apply next_msg_not_None in Hq as [Hm Hq].
  rewrite <- _t_account_body_q_account in Hq.
  assert (Hb := _t_account_body_no_break i s Hm).
  unfold mbind, M_bind.
  destruct (_t_account_body i s) as [[[[]|e] s1] t1]; simpl in *; try done.
  specialize (IH s1 Hq).
  by destruct (_t_account inputs s1) as [[r s2] t2].
Qed.

Lemma _t_account_in_loop inputs : ∀ s,
  Forall (λ msg, msg ≠ PyNone) (q_account s ++ concat (puts <$> inputs)) →
  Forall (λ i, polite i = true) inputs →
  ∃ s', _t_account inputs s
        = (Ok in_loop, s',
           replicate (length inputs) (AccountSummary (account (p s)))).
Proof.
  induction inputs as [|i inputs IH]; intros s Hq Hp; [by eexists|].
  simpl in *. apply next_msg_not_None in Hq as [Hm Hq].
  apply Forall_cons in Hp as [Hi Hp].
  rewrite <- _t_account_body_q_account in Hq.
  assert (Hb := _t_account_body_polite i s Hm Hi).
  assert (Ht := _t_account_body_fetches i s Hm).
  assert (Hprm := _t_account_body_p i s).
  unfold mbind, M_bind.
  destruct (_t_account_body i s) as [[r s1] t1]; simpl in *; subst.
  destruct (IH s1 Hq Hp) as [s' ->]. rewrite Hprm. by eexists.
Qed.

(** C7, amended: the poller's loop has one exit, the message [None] on
    its queue: an iteration that gets it breaks, and the thread function
    returns. No other message and no timeout makes it end: as long as no
    [None] is put on the queue, the thread function does not return, and
    when, besides, reading the fields of the fetched accounts raises nothing
    but [KeyError], the thread is still in its loop after any number of
    iterations, having called the API in each of them. *)
Theorem _t_account_ends_on_None_only :
  (∀ i inputs s,
      next_msg i s = Some PyNone →
      _t_account (i :: inputs) s = (Ok returned, after_get i s, []))
  ∧ (∀ inputs s,
      Forall (λ msg, msg ≠ PyNone) (q_account s ++ concat (puts <$> inputs)) →
      (_t_account inputs s).1.1 ≠ Ok returned)
  ∧ (∀ inputs s,
      Forall (λ msg, msg ≠ PyNone) (q_account s ++ concat (puts <$> inputs)) →
      Forall (λ i, polite i = true) inputs →
      ∃ s', _t_account inputs s
            = (Ok in_loop, s',
               replicate (length inputs) (AccountSummary (account (p s))))).
Proof.
  split; [|split].
  - intros i inputs s Hm. simpl. unfold mbind, M_bind.
    by rewrite (_t_account_body_break i s Hm).
  - apply _t_account_not_returned.
  - apply _t_account_in_loop.
Qed.

(** ** [start] *)

Lemma _t_account_body_frame i s : poller_frame s (_t_account_body i s).1.2.
Proof.
  rewrite _t_account_body_cases. unfold poller_frame.
  destruct (next_msg i s) as [[]|]; try done; by_body_cases i.
Qed.

Lemma _t_account_frame inputs : ∀ s, poller_frame s (_t_account inputs s).1.2.
Proof.
  induction inputs as [|i inputs IH]; intros s; [done|].
  simpl. unfold mbind, M_bind.
  assert (Hf := _t_account_body_frame i s).
  destruct (_t_account_body i s) as [[[[]|e] s1] t1]; simpl in *; try done.
  specialize (IH s1).
  destruct (_t_account inputs s1) as [[r s2] t2]; simpl in *.
  unfold poller_frame in *. destruct_and!. repeat split; congruence.
Qed.

(** The flag is set at the end of an iteration whose fetch succeeded, and
    nowhere else; nothing clears it. *)
Lemma _t_account_body_sets_flag i s :
  _evt_acct s = false →
  _evt_acct (_t_account_body i s).1.2 = true →
  (_t_account_body i s).1.1 = Ok loop_next ∧ ∃ acc, fetch i = Ok acc.
Proof.
  intros Hs. rewrite _t_account_body_cases.
  destruct (next_msg i s) as [[]|]; simpl; try congruence;
    (destruct (fetch i) as [acc|err]; simpl; [|congruence];
     destruct (marginAvailable acc) as [?|err];
     [destruct (balance acc) as [?|err]; [by eauto|]|];
     destruct (is_KeyError err); simpl; try congruence; by eauto).
Qed.

Lemma _t_account_body_keeps_flag i s :
  _evt_acct s = true → _evt_acct (_t_account_body i s).1.2 = true.
Proof.
  intros Hs. rewrite _t_account_body_cases.
  destruct (next_msg i s) as [[]|]; try done; by_body_cases i.
Qed.

(** The wait lasts for some iterations of the poller, all of them in the
    window; it ends with the first of them that sets the flag. *)
Lemma poller_until_set_spec window : ∀ s,
  ∃ k, (k ≤ length window)%nat ∧
    let '(r, s', t) := _t_account (take k window) s in
    poller_until_set window s = (Ok (_evt_acct s'), s', t)
    ∧ (_evt_acct s = true → k = 0%nat)
    ∧ (_evt_acct s = false → _evt_acct s' = true →
       ∃ i acc, last (take k window) = Some i ∧ fetch i = Ok acc)
    ∧ (_evt_acct s' = false → k = length window ∨ r ≠ Ok in_loop).
Proof.
  induction window as [|i w IH]; intros s.
  - exists 0%nat. split; [done|]. simpl.
    destruct (_evt_acct s) eqn:E; repeat split; try done; eauto.
  - simpl poller_until_set. destruct (_evt_acct s) eqn:E.
    { exists 0%nat. split; [lia|]. simpl. rewrite E. repeat split; done. }
    assert (Hflag := _t_account_body_sets_flag i s E).
    destruct (_t_account_body i s) as [[[[]|e] s1] t1] eqn:Hb; simpl in Hflag.
    + destruct (IH s1) as (k & Hk & H). exists (S k). split; [simpl; lia|].
      simpl. unfold mbind, M_bind. rewrite Hb.
      destruct (_t_account (take k w) s1) as [[r s'] t].
      destruct H as (-> & H0 & Hset & Hto). repeat split; try done.
      * intros _ Hs'. destruct (_evt_acct s1) eqn:E1.
        -- rewrite (H0 eq_refl). simpl.
           destruct (Hflag eq_refl) as [_ [acc Hacc]]. eauto.
        -- destruct (Hset eq_refl Hs') as (j & acc & Hl & Hacc).
           exists j, acc. split; [|done].
           destruct (take k w); [done|]. done.
      * intros Hs'. destruct (Hto Hs') as [->|]; auto.
    + exists 1%nat. split; [simpl; lia|].
      simpl. unfold mbind, M_bind. rewrite Hb. simpl. rewrite ?app_nil_r.
      repeat split; try done.
      * intros _ Hs'. by destruct (Hflag Hs').
      * by right.
    + exists 1%nat. split; [simpl; lia|].
      simpl. unfold mbind, M_bind. rewrite Hb. simpl. rewrite ?app_nil_r.
      repeat split; try done.
      * intros _ Hs'. by destruct (Hflag Hs').
      * by right.
Qed.

(** [start] with a data feed, on a store that has a broker: the feed is
    registered and the broker is told. *)
Example start_data_with_broker :
  start (Some feed0) None [] (set_broker (Some broker0) store0)
  = (Ok tt, set_datas [feed0] (set_broker (Some broker0) store0),
     [DataStarted broker0 feed0]).
Proof. reflexivity. Qed.

(** C6, as stated, fails: with a data feed, the broker argument is not
    looked at. *)
Lemma start_with_data_ignores_broker :
  start (Some feed0) (Some broker0) [fetching account_ok] store0
  = (Ok tt, set_datas [feed0] store0, [])
  ∧ broker (set_datas [feed0] store0) = None.
Proof. split; reflexivity. Qed.

(** An iteration that goes on to the next one and leaves the flag unset
    is one whose fetch raised. *)
Lemma _t_account_body_next_unset i s s1 t1 :
  _t_account_body i s = (Ok loop_next, s1, t1) →
  _evt_acct s1 = false →
  ∃ e, fetch i = Raise e.
Proof.
  rewrite _t_account_body_cases.
  destruct (next_msg i s) as [[]|]; try done;
    (destruct (fetch i) as [acc|err]; [|by eauto];
     destruct (marginAvailable acc) as [?|err];
     [destruct (balance acc) as [?|err]|];
     try destruct (is_KeyError err); intros [= <- <-]; done).
Qed.

(** An iteration that reaches the fetch, whose fetch succeeds and in which
    reading the fields raises nothing but [KeyError], sets the flag. *)
Lemma _t_account_body_signals i s acc :
  next_msg i s ≠ Some PyNone →
  fetch i = Ok acc →
  fields_benign acc = true →
  ∃ s1,
    _t_account_body i s
    = (Ok loop_next, s1, [AccountSummary (account (p s))])
    ∧ _evt_acct s1 = true.
Proof.
  unfold fields_benign. intros Hm Hf Hb. rewrite _t_account_body_cases, Hf.
  destruct (next_msg i s) as [[]|]; try done;
    (destruct (marginAvailable acc) as [?|err];
     [destruct (balance acc) as [?|err]|];
     rewrite ?Hb; by eexists).
Qed.

(** The wait lasts for the first [k] iterations of the window and no
    longer: after each of the iterations before the last, the poller was
    still in its loop and the flag unset; the wait ends with the flag
    unset only when the window is over or the poller has ended; and the
    iteration that set the flag is the first whose fetch succeeded. *)
Lemma poller_until_set_first window : ∀ s,
  ∃ k, (k ≤ length window)%nat ∧
    let '(r, s', t) := _t_account (take k window) s in
    poller_until_set window s = (Ok (_evt_acct s'), s', t)
    ∧ (∀ j, (j < k)%nat →
         (_t_account (take j window) s).1.1 = Ok in_loop
         ∧ _evt_acct (_t_account (take j window) s).1.2 = false)
    ∧ (_evt_acct s' = false → k = length window ∨ r ≠ Ok in_loop)
    ∧ (_evt_acct s = false → _evt_acct s' = true →
       ∃ before i acc,
         take k window = before ++ [i]
         ∧ fetch i = Ok acc
         ∧ Forall (λ j, ∃ e, fetch j = Raise e) before).
Proof.
  induction window as [|i w IH]; intros s.
  - exists 0%nat. split; [done|]. simpl.
    destruct (_evt_acct s) eqn:E; repeat split; try done; eauto; lia.
  - simpl poller_until_set. destruct (_evt_acct s) eqn:E.
    { exists 0%nat. split; [simpl; lia|]. simpl. rewrite E.
      repeat split; try done; lia. }
    assert (Hflag := _t_account_body_sets_flag i s E).
    assert (Hnext := _t_account_body_next_unset i s).
    destruct (_t_account_body i s) as [[[[]|e] s1] t1] eqn:Hb; simpl in Hflag.
    + destruct (IH s1) as (k & Hk & H). exists (S k). split; [simpl; lia|].
      simpl. unfold mbind, M_bind. rewrite Hb.
      destruct (_t_account (take k w) s1) as [[r s'] t] eqn:Hrun.
      destruct H as (-> & Hmin & Hto & Hset). repeat split; try done.
      * destruct j as [|j]; [done|]. simpl. unfold mbind, M_bind. rewrite Hb.
        assert (j < k)%nat as Hj by lia. destruct (Hmin j Hj) as [Hr _].
        by destruct (_t_account (take j w) s1) as [[rj sj] tj].
      * destruct j as [|j]; [done|]. simpl. unfold mbind, M_bind. rewrite Hb.
        assert (j < k)%nat as Hj by lia. destruct (Hmin j Hj) as [_ Hs].
        by destruct (_t_account (take j w) s1) as [[rj sj] tj].
      * intros Hs'. destruct (Hto Hs') as [->|]; auto.
      * intros _ Hs'. destruct (_evt_acct s1) eqn:E1.
        -- destruct k as [|k].
           ++ destruct (Hflag eq_refl) as [_ [acc Hacc]].
              exists [], i, acc. simpl. by rewrite take_0.
           ++ destruct (Hmin 0%nat) as [_ H0]; [lia|].
              simpl in H0. congruence.
        -- destruct (Hset eq_refl Hs') as (before & i' & acc & Ht & Hacc & Hf).
           exists (i :: before), i', acc. simpl. rewrite Ht.
           repeat split; [done|]. apply Forall_cons. split; [|done].
           by apply (Hnext s1 t1).
    + exists 1%nat. split; [simpl; lia|].
      simpl. unfold mbind, M_bind. rewrite Hb. simpl. rewrite ?app_nil_r.
      repeat split; try done.
      * destruct j; [done|lia].
      * destruct j; [done|lia].
      * by right.
      * intros _ Hs'. by destruct (Hflag Hs').
    + exists 1%nat. split; [simpl; lia|].
      simpl. unfold mbind, M_bind. rewrite Hb. simpl. rewrite ?app_nil_r.
      repeat split; try done.
      * destruct j; [done|lia].
      * destruct j; [done|lia].
      * by right.
      * intros _ Hs'. by destruct (Hflag Hs').
Qed.

(** The wait ends with the first iteration whose fetch succeeds, when the
    poller gets that far (no [None] on its queue) and reading the fields
    raises nothing but [KeyError]. *)
Lemma poller_until_set_first_success before : ∀ errs s i after acc,
  _evt_acct s = false →
  Forall (λ msg, msg ≠ PyNone)
         (q_account s ++ concat (puts <$> before ++ [i])) →
  Forall2 (λ j e, fetch j = Raise e) before errs →
  fetch i = Ok acc →
  fields_benign acc = true →
  ∃ s' t,
    _t_account (before ++ [i]) s = (Ok in_loop, s', t)
    ∧ poller_until_set (before ++ i :: after) s = (Ok true, s', t)
    ∧ _evt_acct s' = true.
Proof.
  induction before as [|j before IH]; intros errs s i after acc E Hq Herrs Hf Hb.
  - simpl in *. rewrite app_nil_r in Hq.
    assert (Hm : next_msg i s ≠ Some PyNone).
    { apply (next_msg_not_None i s []). by rewrite app_nil_r. }
    destruct (_t_account_body_signals i s acc Hm Hf Hb) as (s1 & Hbody & Hs1).
    exists s1, [AccountSummary (account (p s))].
    unfold mbind, M_bind. rewrite E, Hbody. simpl. repeat split; [|done].
    destruct after; simpl; by rewrite Hs1.
  - apply Forall2_cons_inv_l in Herrs as (e & errs' & He & Herrs & ->).
    simpl in Hq. apply next_msg_not_None in Hq as [Hm Hq].
    simpl. unfold mbind, M_bind. rewrite E.
    rewrite (_t_account_body_fetch_raises j s e Hm He).
    set (s1 := set_notifs _ _) in *.
    destruct (IH errs' s1 i after acc E Hq Herrs Hf Hb)
      as (s' & t & -> & -> & Hs').
    by eexists _, _.
Qed.

(** C6, amended: when [start] is called with a broker and no data feed, it
    registers the broker, starts the three daemon threads, and blocks on
    the ready event with [account_tmout] as timeout, until the event is
    signalled. The wait lasts for the first [k] iterations of the poller,
    none of them beyond the timeout, and not one more than needed: after
    each iteration before the last the poller was still in its loop with
    the flag unset, so [start] returns at the first iteration that sets
    the flag (at once when it finds the flag set); it returns with the flag
    unset only when the timeout has passed or the poller has ended. The
    event is signalled after the poller's first successful fetch: when
    [start] finds the flag unset and leaves it set, the last iteration is
    the first whose fetch succeeded (the fetches before it raised); and
    when the poller gets to its first successful fetch within the timeout
    and reading the account's fields raises nothing but [KeyError],
    [start] returns right after that iteration, with the flag set. *)
Theorem start_broker_waits_for_account (b : broker_ref)
    (window : list cycle_input) (s : OandaV20Store) :
  (∃ k, (k ≤ length window)%nat ∧
     let '(r, s', t) := _t_account (take k window) (broker_started b s) in
     start None (Some b) window s = (Ok tt, s', broker_start_effects s ++ t)
     ∧ broker s' = Some b
     ∧ (_evt_acct s = true → k = 0%nat)
     ∧ (∀ j, (j < k)%nat →
          (_t_account (take j window) (broker_started b s)).1.1 = Ok in_loop
          ∧ _evt_acct (_t_account (take j window) (broker_started b s)).1.2
            = false)
     ∧ (_evt_acct s' = false → k = length window ∨ r ≠ Ok in_loop)
     ∧ (_evt_acct s = false → _evt_acct s' = true →
        ∃ before i acc,
          take k window = before ++ [i]
          ∧ fetch i = Ok acc
          ∧ Forall (λ j, ∃ e, fetch j = Raise e) before))
  ∧ (∀ before i after errs acc,
       window = before ++ i :: after →
       _evt_acct s = false →
       Forall (λ msg, msg ≠ PyNone) (concat (puts <$> before ++ [i])) →
       Forall2 (λ j e, fetch j = Raise e) before errs →
       fetch i = Ok acc →
       fields_benign acc = true →
       ∃ s' t,
         _t_account (before ++ [i]) (broker_started b s) = (Ok in_loop, s', t)
         ∧ start None (Some b) window s
           = (Ok tt, s', broker_start_effects s ++ t)
         ∧ _evt_acct s' = true).
Proof.
  assert (Hstart : start None (Some b) window s =
                   let '(r, s', t) :=
                     poller_until_set window (broker_started b s) in
                   (match r with Ok _ => Ok tt | Raise e => Raise e end,
                    s', broker_start_effects s ++ t)).
  { unfold start, broker_threads, streaming_events, _evt_acct_wait.
    unfold_M. simpl.
    change (set_q_account [PyBool true]
              (set_q_account [] (set_broker (Some b) s)))
      with (broker_started b s).
    destruct (poller_until_set window (broker_started b s))
      as [[[r|e] s'] t]; simpl; by rewrite ?app_nil_r. }
  split.
  - destruct (poller_until_set_first window (broker_started b s))
      as (k & Hk & H).
    exists k. split; [done|].
    assert (Hf := _t_account_frame (take k window) (broker_started b s)).
    destruct (_t_account (take k window) (broker_started b s)) as [[r s'] t].
    destruct H as (Hw & Hmin & Hto & Hset). repeat split; try done.
    + by rewrite Hstart, Hw.
    + destruct Hf as (_ & _ & Hb & _). simpl in Hb. by rewrite Hb.
    + intros Hs. destruct k as [|k]; [done|].
      destruct (Hmin 0%nat) as [_ H0]; [lia|]. simpl in H0. congruence.
    + by apply Hmin.
    + by apply Hmin.
  - intros before i after errs acc -> Hs Hq Herrs Hf Hb.
    assert (Hq' : Forall (λ msg, msg ≠ PyNone)
                    (q_account (broker_started b s)
                     ++ concat (puts <$> before ++ [i]))).
    { simpl. by apply Forall_cons. }
    destruct (poller_until_set_first_success before errs (broker_started b s)
                i after acc Hs Hq' Herrs Hf Hb) as (s' & t & Hrun & Hw & Hs').
    exists s', t. repeat split; try done. by rewrite Hstart, Hw.
Qed.


(** ** [start] without arguments *)

(** C9: [start] with neither a data feed nor a broker returns [None]
    without starting a thread or doing anything else outside the store;
    in the store it sets the attribute [cash] to [None] and nothing
    else, so that [get_cash] and [get_value] return what they returned
    before. *)
Theorem start_without_arguments (window : list cycle_input)
    (s : OandaV20Store) :
  let s' := set_cash (Some PyNone) s in
  start None None window s = (Ok tt, s', [])
  ∧ cash s' = Some PyNone
  ∧ (get_cash s').1.1 = (get_cash s).1.1
  ∧ (get_value s').1.1 = (get_value s).1.1
  ∧ get_cash s' = (Ok (_cash s), s', [])
  ∧ get_value s' = (Ok (_value s), s', []).
Proof. repeat split. Qed.

(** ** The singleton *)

(** Two calls with different parameters: one instance, with the
    parameters of the first call. *)
Example singleton_two_calls :
  let practice_kw :=
    {| MetaSingleton.kw_token := Some "abc"; MetaSingleton.kw_account := None;
       MetaSingleton.kw_practice := Some true;
       MetaSingleton.kw_account_tmout := None |} in
  let live_kw :=
    {| MetaSingleton.kw_token := Some "xyz"; MetaSingleton.kw_account := None;
       MetaSingleton.kw_practice := Some false;
       MetaSingleton.kw_account_tmout := None |} in
  ∃ c,
    MetaSingleton.calls [practice_kw; live_kw] MetaSingleton.__init__
    = ([Ok 0%nat; Ok 0%nat], c)
    ∧ (hostname ∘ oapi) <$> MetaSingleton.instances c
      = ["api-fxpractice.oanda.com"].
Proof. by eexists. Qed.

Lemma calls_of_singleton kws : ∀ c r,
  MetaSingleton._singleton c = Some r →
  MetaSingleton.calls kws c = (replicate (length kws) (Ok r), c).
Proof.
  induction kws as [|kw kws IH]; intros c r Hc; [done|].
  simpl. unfold MetaSingleton.__call__. rewrite Hc.
  by rewrite (IH c r Hc).
Qed.

(** C8: whatever the calls of the class and their arguments, the first
    call makes the instance, from its own arguments, and every call
    returns that instance: after the calls there is one instance, the
    one that [__init__] made from the arguments of the first call. *)
Theorem singleton_first_call_wins (kw : MetaSingleton.kwargs)
    (kws : list MetaSingleton.kwargs) :
  ∃ obj,
    __init__ (MetaSingleton.bind_params kw) = Ok obj
    ∧ p obj = MetaSingleton.bind_params kw
    ∧ MetaSingleton.calls (kw :: kws) MetaSingleton.__init__
      = (replicate (S (length kws)) (Ok 0%nat),
         {| MetaSingleton._singleton := Some 0%nat;
            MetaSingleton.instances := [obj] |}).
Proof.
  destruct (__init___total (MetaSingleton.bind_params kw)) as (obj & Hobj & Hp).
  exists obj. repeat split; [done..|].
  simpl. unfold MetaSingleton.__call__ at 1. simpl. rewrite Hobj. simpl.
  by rewrite (calls_of_singleton kws
               {| MetaSingleton._singleton := Some 0%nat;
                  MetaSingleton.instances := [obj] |} 0%nat eq_refl).
Qed.

(** ** The deque holds no mark between two calls

    The store as [__init__] leaves it holds no mark, and every method that
    touches the deque keeps it so. *)

Lemma no_mark___init__ prm s : __init__ prm = Ok s → no_mark s.
Proof.
  destruct prm as [tk ac [] tm]; intros [= <-]; by exists [].
Qed.

Lemma no_mark_put_notification msg args kwargs s :
  no_mark s → no_mark (put_notification msg args kwargs s).1.2.
Proof.
  intros [xs Hxs]. exists (xs ++ [(msg, args, kwargs)]).
  simpl. by rewrite Hxs, fmap_app.
Qed.

Lemma no_mark_get_notifications others s :
  no_mark s → no_mark (get_notifications others s).1.2.
Proof.
  intros [xs Hxs]. rewrite (get_notifications_spec _ _ _ Hxs). by eexists.
Qed.

Lemma no_mark__t_account_body i s :
  no_mark s → no_mark (_t_account_body i s).1.2.
Proof.
  intros [xs Hxs]. rewrite _t_account_body_cases. unfold no_mark.
  destruct (next_msg i s) as [[]|]; simpl; eauto;
    (destruct (fetch i) as [acc|err]; simpl;
     [|exists (xs ++ [(PyExn err, [], [])]); by rewrite Hxs, fmap_app];
     destruct (marginAvailable acc) as [?|err];
     [destruct (balance acc) as [?|err]; [by eauto|]|];
     destruct (is_KeyError err); simpl; by eauto).
Qed.

(** ** The theorems at work *)

(** The table with backtrader's numbering: a pair that is listed and one
    that is not. *)
Lemma get_granularity_table_witness :
  bt_get_granularity TimeFrame.Minutes 60 = Some "H1"
  ∧ bt_get_granularity TimeFrame.Minutes 7 = None.
Proof.
  assert (D : NoDup [TimeFrame.Seconds; TimeFrame.Minutes; TimeFrame.Days;
                     TimeFrame.Weeks; TimeFrame.Months]).
  { compute_done. }
  destruct (get_granularity_table _ _ _ _ _ D) as [Hin Hout]. split.
  - apply Hin. compute_done.
  - apply Hout. compute_done.
Defined.

(** Two notifications are pending; a third arrives while the first call
    drains the deque and a fourth between the calls. *)
Lemma get_notifications_twice_witness :
  (first ← get_notifications [[note "c"]];
   put_notifications [note "d"];;
   second ← get_notifications [];
   mret (first, second))
    (set_notifs [Some (note "a"); Some (note "b")] store0)
  = (Ok ([note "a"; note "b"], [note "c"; note "d"]), store0, []).
Proof.
  destruct (get_notifications_twice
              (set_notifs [Some (note "a"); Some (note "b")] store0)
              [note "a"; note "b"] [[note "c"]] [note "d"] [] eq_refl)
    as [_ H].
  exact H.
Defined.

(** The first iteration after [start], with the API down. *)
Lemma fetch_error_is_notified_witness :
  ∃ s',
    _t_account_body failing (broker_started broker0 store0)
    = (Ok loop_next, s', [AccountSummary ""])
    ∧ notifs s' = [Some (PyExn api_down, [], [])]
    ∧ _cash s' = PyFloat 0
    ∧ _value s' = PyFloat 0
    ∧ (_t_account_body (fetching account_ok) s').2 = [AccountSummary ""].
Proof.
  destruct (fetch_error_is_notified failing (broker_started broker0 store0)
              api_down)
    as (s' & Hbody & Hn & Hc & Hv & _ & _ & Hnext); [done|done|].
  exists s'. repeat split; try assumption.
  apply Hnext. vm_compute in Hbody. injection Hbody as <-. done.
Defined.

(** The first iteration after [start], with the API answering. *)
Lemma successful_fetch_sets_cash_and_value_witness :
  ∃ s',
    _t_account_body (fetching account_ok) (broker_started broker0 store0)
    = (Ok loop_next, s', [AccountSummary ""])
    ∧ get_cash s' = (Ok (PyFloat (100 # 1)), s', [])
    ∧ get_value s' = (Ok (PyFloat (250 # 1)), s', []).
Proof.
  apply (successful_fetch_sets_cash_and_value
           (fetching account_ok) (broker_started broker0 store0) account_ok);
    reflexivity || discriminate.
Defined.

(** An account without [balance]: the flag is set, [_cash] is the
    account's, [_value] is as before. *)
Lemma KeyError_is_swallowed_witness :
  ∃ s',
    _t_account_body (fetching account_without_balance) store0
    = (Ok loop_next, s', [AccountSummary ""])
    ∧ _evt_acct s' = true
    ∧ _cash s' = PyFloat (100 # 1)
    ∧ _value s' = PyFloat 0.
Proof.
  destruct (KeyError_is_swallowed (fetching account_without_balance) store0
              account_without_balance (Exn KeyError "balance"))
    as (_ & H & _); [discriminate|reflexivity|reflexivity|].
  exact (H (PyFloat (100 # 1)) eq_refl eq_refl).
Defined.

(** On the store as [__init__] leaves it, the message [None] ends the
    thread; after [start], with the message [True] of [broker_threads]
    alone on the queue, the thread is still in its loop after two
    iterations, whether the API answers or not. *)
Lemma _t_account_ends_on_None_only_witness :
  _t_account [told_to_end] store0 = (Ok returned, store0, [])
  ∧ (_t_account [failing; failing] (broker_started broker0 store0)).1.1
    ≠ Ok returned
  ∧ (∃ s',
      _t_account [fetching account_ok; failing] (broker_started broker0 store0)
      = (Ok in_loop, s', [AccountSummary ""; AccountSummary ""])).
Proof.
  destruct _t_account_ends_on_None_only as (Hend & Hnot & Hloop).
  split; [|split].
  - exact (Hend told_to_end [] store0 eq_refl).
  - apply (Hnot [failing; failing] (broker_started broker0 store0)).
    repeat constructor; discriminate.
  - apply (Hloop [fetching account_ok; failing] (broker_started broker0 store0)).
    + repeat constructor; discriminate.
    + repeat constructor.
Defined.

(** [start] with a broker, the API down in the first iteration of the
    poller and answering in the second: the broker is registered and the
    wait ends after the second iteration, the first whose fetch succeeded,
    with the flag set; the third iteration of the window is not waited
    for. And with the API answering at once, the iteration that sets the
    flag is the first of the window. *)
Lemma start_broker_waits_for_account_witness :
  (∃ s' t,
      _t_account ([failing] ++ [fetching account_ok])
                 (broker_started broker0 store0)
      = (Ok in_loop, s', t)
      ∧ start None (Some broker0) [failing; fetching account_ok; failing]
              store0
        = (Ok tt, s', broker_start_effects store0 ++ t)
      ∧ _evt_acct s' = true)
  ∧ (∃ before i acc,
       [fetching account_ok] = before ++ [i]
       ∧ fetch i = Ok acc
       ∧ Forall (λ j, ∃ e, fetch j = Raise e) before).
Proof.
  split.
  - apply (proj2 (start_broker_waits_for_account broker0
                    [failing; fetching account_ok; failing] store0)
             [failing] (fetching account_ok) [failing] [api_down] account_ok).
    + reflexivity.
    + reflexivity.
    + repeat constructor.
    + repeat constructor.
    + reflexivity.
    + reflexivity.
  - destruct (proj1 (start_broker_waits_for_account broker0
                       [fetching account_ok] store0)) as (k & Hk & H).
    destruct k as [|[|k]]; simpl in Hk; [| |lia].
    + vm_compute in H. destruct H as (H & _). discriminate H.
    + simpl in H. destruct H as (_ & _ & _ & _ & _ & Hset).
      exact (Hset eq_refl eq_refl).
Defined.

(** * Further properties *)

(** ** [__init__] *)

(** X1. [__init__] never raises: both URL lists have an entry for either value
    of [practice]. The two contexts are made for the same environment,
    the practice hosts exactly when [practice] is set, and with the same
    token; the store starts with no notification, no feed, no broker, the
    flag unset and [0.0] for cash and value. *)
Theorem __init___same_environment (prm : params) :
  ∃ s,
    __init__ prm = Ok s
    ∧ p s = prm
    ∧ (hostname (oapi s), hostname (oapi_stream s))
      = (if practice prm
         then ("api-fxpractice.oanda.com", "stream-fxpractice.oanda.com")
         else ("api-fxtrade.oanda.com", "stream-fxtrade.oanda.com"))
    ∧ ctx_token (oapi s) = token prm
    ∧ ctx_token (oapi_stream s) = token prm
    ∧ (port (oapi s), ssl (oapi s)) = (443, true)
    ∧ (port (oapi_stream s), ssl (oapi_stream s)) = (443, true)
    ∧ notifs s = [] ∧ datas s = [] ∧ broker s = None
    ∧ _evt_acct s = false
    ∧ _cash s = PyFloat 0 ∧ _value s = PyFloat 0.
Proof.
  destruct prm as [tk ac [] tm]; eexists; repeat split.
Qed.

(** ** The deque, whatever it holds *)

(** A deque with a mark appended splits at its first mark. *)
Lemma split_at_first_mark (q : list (option notification)) :
  ∃ xs rest,
    q ++ [None] = (Some <$> xs) ++ None :: rest
    ∧ pending q = xs ++ pending rest
    ∧ marks q = marks rest.
Proof.
  induction q as [|[x|] q IH].
  - exists [], []. done.
  - destruct IH as (xs & rest & Hq & Hp & Hm).
    exists (x :: xs), rest. simpl. rewrite Hq. repeat split; [|done].
    unfold pending in *. simpl. by rewrite Hp.
  - exists [], (q ++ [None]). repeat split.
    + unfold pending. rewrite omap_app. simpl. by rewrite app_nil_r.
    + simpl. clear IH. induction q as [|[x|] q IHq]; simpl; lia.
Qed.

Lemma pending_app q1 q2 : pending (q1 ++ q2) = pending q1 ++ pending q2.
Proof. apply omap_app. Qed.

Lemma pending_Some xs : pending (Some <$> xs) = xs.
Proof.
  induction xs as [|x xs IH]; [done|].
  change (x :: pending (Some <$> xs) = x :: xs). by rewrite IH.
Qed.

Lemma marks_app q1 q2 : marks (q1 ++ q2) = (marks q1 + marks q2)%nat.
Proof. induction q1 as [|[x|] q1 IH]; simpl; auto. Qed.

Lemma marks_Some xs : marks (Some <$> xs) = 0%nat.
Proof. induction xs as [|x xs IH]; simpl; auto. Qed.

(** X2. Whatever the deque holds, stale marks included, and whatever other
    threads append meanwhile, [get_notifications] does not raise: the
    mark that it appends is there for [popleft] to find. No notification
    is lost or duplicated: what is returned, followed by what is left, is
    what was pending followed by what was appended, in this order. And
    the call leaves in the deque as many marks as it found there. *)
Theorem get_notifications_never_raises
    (others : list (list notification)) (s : OandaV20Store) :
  ∃ xs q n,
    get_notifications others s = (Ok xs, set_notifs q s, [])
    ∧ xs ++ pending q = pending (notifs s) ++ appended n others
    ∧ marks q = marks (notifs s).
Proof.
  destruct (split_at_first_mark (notifs s)) as (xs & rest & Hq & Hp & Hm).
  exists xs, (rest ++ (Some <$> appended (S (length xs)) others)),
    (S (length xs)).
  unfold get_notifications. rewrite Hq, popleft_until_mark_drains.
  repeat split.
  - by rewrite pending_app, pending_Some, Hp, app_assoc.
  - rewrite marks_app, marks_Some, Hm. lia.
Qed.

(** The loop alone, on a deque without mark and with no other thread
    appending, empties the deque and raises [IndexError]: it is the mark
    of [get_notifications] that ends it. *)
Theorem popleft_until_mark_without_mark (xs : list notification) :
  popleft_until_mark [] (Some <$> xs)
  = (Raise (Exn IndexError "pop from an empty deque"), []).
Proof.
  induction xs as [|x xs IH]; rewrite popleft_until_mark_eq;
    change (Some <$> hd [] []) with (@nil (option notification));
    rewrite app_nil_r; [done|].
  change (tl []) with (@nil (list notification)).
  rewrite fmap_cons. by rewrite IH.
Qed.

(** X3. What is put is what is got, once: on a deque without mark, with no
    other thread, [get_notifications] after some [put_notification]s
    returns what was pending and then what was put, in the order of the
    calls, and empties the deque; a second call returns the empty list. *)
Theorem put_then_get_notifications (s : OandaV20Store)
    (pending_before put : list notification) :
  notifs s = Some <$> pending_before →
  (put_notifications put;;
   first ← get_notifications [];
   second ← get_notifications [];
   mret (first, second)) s
  = (Ok (pending_before ++ put, []), set_notifs [] s, []).
Proof.
  intros Hq. unfold mbind, M_bind. rewrite put_notifications_spec. simpl.
  rewrite (get_notifications_spec _ _ (pending_before ++ put));
    [|simpl; by rewrite Hq, fmap_app].
  simpl. rewrite (get_notifications_spec _ _ []); [|done].
  done.
Qed.

Lemma put_then_get_notifications_witness :
  (put_notifications [note "b"; note "c"];;
   first ← get_notifications [];
   second ← get_notifications [];
   mret (first, second)) (set_notifs [Some (note "a")] store0)
  = (Ok ([note "a"; note "b"; note "c"], []), store0, []).
Proof.
  exact (put_then_get_notifications (set_notifs [Some (note "a")] store0)
           [note "a"] [note "b"; note "c"] eq_refl).
Defined.

(** ** The poller, iteration by iteration *)

(** X4. The poller does not look at what it gets from its queue, beyond
    comparing it with [None]: an iteration that gets any other message
    does what an iteration that times out on an empty queue does, and
    leaves on the queue what was behind the message. *)
Theorem message_is_like_timeout (i : cycle_input) (s : OandaV20Store)
    (msg : pyval) (q : list pyval) :
  q_account s ++ puts i = msg :: q →
  msg ≠ PyNone →
  _t_account_body i s =
  let '(r, s', t) :=
    _t_account_body {| puts := []; summary := summary i |}
                    (set_q_account [] s) in
  (r, set_q_account q s', t).
Proof.
  intros Hq Hmsg. rewrite !_t_account_body_cases.
  unfold next_msg, after_get, fetch. simpl. rewrite Hq. simpl.
  destruct msg; try done;
    (destruct (summary i) as [r|err]; [|done];
     destruct (get_account r) as [acc|err]; [|done];
     destruct (marginAvailable acc) as [?|err];
     [destruct (balance acc) as [?|err]; [done|]|];
     destruct (is_KeyError err); done).
Qed.

Lemma message_is_like_timeout_witness :
  _t_account_body (fetching account_ok) (broker_started broker0 store0) =
  let '(r, s', t) :=
    _t_account_body (fetching account_ok)
                    (set_q_account [] (broker_started broker0 store0)) in
  (r, set_q_account [] s', t).
Proof.
  apply (message_is_like_timeout (fetching account_ok)
           (broker_started broker0 store0) (PyBool true) []);
    [reflexivity|discriminate].
Defined.

(** X5. An exception other than [KeyError] from reading [marginAvailable] or
    [balance] is caught by nothing: it ends the thread, whatever
    iterations would have followed. Nothing is notified and the ready flag
    is not touched; [_value] is as before, and [_cash] is as before unless
    it was [balance] that raised, after [_cash] was assigned. *)
Theorem field_error_ends_the_thread (i : cycle_input)
    (inputs : list cycle_input) (s : OandaV20Store) (acc : Account) (e : exn) :
  next_msg i s ≠ Some PyNone →
  fetch i = Ok acc →
  is_KeyError e = false →
  marginAvailable acc = Raise e
  ∨ (∃ c, marginAvailable acc = Ok c ∧ balance acc = Raise e) →
  ∃ s',
    _t_account (i :: inputs) s
    = (Raise e, s', [AccountSummary (account (p s))])
    ∧ notifs s' = notifs s
    ∧ _evt_acct s' = _evt_acct s
    ∧ _value s' = _value s
    ∧ _cash s' = match marginAvailable acc with
                 | Ok c => c
                 | Raise _ => _cash s
                 end.
Proof.
  intros Hm Hf He Hraise. simpl. unfold mbind, M_bind.
  rewrite _t_account_body_cases, Hf.
  destruct (next_msg i s) as [[]|]; try done;
    (destruct Hraise as [Hc|(c & Hc & Hv)];
     [rewrite Hc, He|rewrite Hc, Hv, He]; eexists; repeat split).
Qed.

(** An account whose [balance] is not an attribute. *)
Lemma field_error_ends_the_thread_witness :
  ∃ s',
    _t_account
      [fetching {| marginAvailable := Ok (PyFloat (100 # 1));
                   balance := Raise (Exn AttributeError "balance") |};
       fetching account_ok]
      (broker_started broker0 store0)
    = (Raise (Exn AttributeError "balance"), s', [AccountSummary ""])
    ∧ notifs s' = []
    ∧ _evt_acct s' = false
    ∧ _value s' = PyFloat 0
    ∧ _cash s' = PyFloat (100 # 1).
Proof.
  apply (field_error_ends_the_thread
           (fetching {| marginAvailable := Ok (PyFloat (100 # 1));
                        balance := Raise (Exn AttributeError "balance") |})
           [fetching account_ok] (broker_started broker0 store0)
           {| marginAvailable := Ok (PyFloat (100 # 1));
              balance := Raise (Exn AttributeError "balance") |}
           (Exn AttributeError "balance"));
    [discriminate|reflexivity|reflexivity|].
  right. exists (PyFloat (100 # 1)). split; reflexivity.
Defined.

(** A run of iterations whose fetches all raise, with no [None] on the
    queue. *)
Lemma _t_account_failing inputs : ∀ errs s,
  Forall2 (λ i e, fetch i = Raise e) inputs errs →
  Forall (λ msg, msg ≠ PyNone) (q_account s ++ concat (puts <$> inputs)) →
  ∃ s',
    _t_account inputs s
    = (Ok in_loop, s',
       replicate (length inputs) (AccountSummary (account (p s))))
    ∧ notifs s' = notifs s ++ (Some ∘ notified <$> errs)
    ∧ _cash s' = _cash s
    ∧ _value s' = _value s
    ∧ _evt_acct s' = _evt_acct s
    ∧ poller_frame s s'.
Proof.
  induction inputs as [|i inputs IH]; intros errs s Herrs Hq.
  - apply Forall2_nil_inv_l in Herrs as ->. exists s. simpl.
    rewrite app_nil_r. by repeat split.
  - apply Forall2_cons_inv_l in Herrs as (e & errs' & He & Herrs & ->).
    simpl in Hq. apply next_msg_not_None in Hq as [Hm Hq].
    simpl. unfold mbind, M_bind.
    rewrite (_t_account_body_fetch_raises i s e Hm He).
    set (s1 := set_notifs _ _) in *.
    destruct (IH errs' s1 Herrs Hq) as (s' & -> & Hn & Hc & Hv & Hf & Hfr).
    exists s'. repeat split; try done;
      [rewrite Hn; simpl; by rewrite <- app_assoc|..];
      by destruct Hfr as (? & ? & ? & ? & ? & ? & ?).
Qed.

(** X6. The figures of the last fetch that succeeded stay: after an iteration
    that fetched an account with both fields, and any number of iterations
    whose fetches raise, [get_cash] and [get_value] still return the
    fields of that account and the flag is set; each failure has left its
    notification, in order. *)
Theorem last_known_values_persist (i : cycle_input)
    (later : list cycle_input) (errs : list exn) (s : OandaV20Store)
    (acc : Account) (c v : pyval) :
  Forall (λ msg, msg ≠ PyNone)
         (q_account s ++ concat (puts <$> i :: later)) →
  fetch i = Ok acc →
  marginAvailable acc = Ok c →
  balance acc = Ok v →
  Forall2 (λ j e, fetch j = Raise e) later errs →
  ∃ s',
    _t_account (i :: later) s
    = (Ok in_loop, s',
       replicate (S (length later)) (AccountSummary (account (p s))))
    ∧ get_cash s' = (Ok c, s', [])
    ∧ get_value s' = (Ok v, s', [])
    ∧ _evt_acct s' = true
    ∧ notifs s' = notifs s ++ (Some ∘ notified <$> errs).
Proof.
  intros Hq Hf Hc Hv Herrs. simpl in Hq.
  apply next_msg_not_None in Hq as [Hm Hq].
  simpl. unfold mbind, M_bind.
  assert (Hbody : _t_account_body i s
                  = (Ok loop_next,
                     set__evt_acct true
                       (set__value v (set__cash c (after_get i s))),
                     [AccountSummary (account (p s))])).
  { rewrite _t_account_body_cases, Hf, Hc, Hv.
    by destruct (next_msg i s) as [[]|]. }
  rewrite Hbody. set (s1 := set__evt_acct _ _) in *.
  destruct (_t_account_failing later errs s1 Herrs Hq)
    as (s' & -> & Hn & Hc' & Hv' & Hflag & _).
  exists s'. unfold get_cash, get_value, gets.
  rewrite Hc', Hv', Hflag, Hn. done.
Qed.

Lemma last_known_values_persist_witness :
  ∃ s',
    _t_account [fetching account_ok; failing; failing]
               (broker_started broker0 store0)
    = (Ok in_loop, s', replicate 3 (AccountSummary ""))
    ∧ get_cash s' = (Ok (PyFloat (100 # 1)), s', [])
    ∧ get_value s' = (Ok (PyFloat (250 # 1)), s', [])
    ∧ _evt_acct s' = true
    ∧ notifs s' = [Some (notified api_down); Some (notified api_down)].
Proof.
  apply (last_known_values_persist (fetching account_ok) [failing; failing]
           [api_down; api_down] (broker_started broker0 store0) account_ok);
    try reflexivity.
  - repeat constructor; discriminate.
  - repeat constructor.
Defined.

(** X7. What the poller has notified is what the host framework gets: after
    iterations whose fetches raise, on a deque without mark, the next
    [get_notifications] returns what was pending and then one [(e, (), {})]
    for each failure, in the order of the failures, and empties the
    deque. *)
Theorem fetch_errors_are_delivered_in_order (later : list cycle_input)
    (errs : list exn) (s : OandaV20Store) (xs : list notification) :
  notifs s = Some <$> xs →
  Forall (λ msg, msg ≠ PyNone) (q_account s ++ concat (puts <$> later)) →
  Forall2 (λ j e, fetch j = Raise e) later errs →
  ∃ s',
    (_t_account later;; get_notifications []) s
    = (Ok (xs ++ (notified <$> errs)), s',
       replicate (length later) (AccountSummary (account (p s))))
    ∧ notifs s' = []
    ∧ _cash s' = _cash s ∧ _value s' = _value s.
Proof.
  intros Hxs Hq Herrs.
  destruct (_t_account_failing later errs s Herrs Hq)
    as (s1 & Hrun & Hn & Hc & Hv & _ & _).
  unfold mbind, M_bind. rewrite Hrun.
  rewrite (get_notifications_spec [] s1 (xs ++ (notified <$> errs))).
  - eexists. rewrite app_nil_r. repeat split; done.
  - rewrite Hn, Hxs, fmap_app. f_equal. by rewrite list_fmap_compose.
Qed.

Lemma fetch_errors_are_delivered_in_order_witness :
  ∃ s',
    (_t_account [failing; failing];; get_notifications [])
      (broker_started broker0 store0)
    = (Ok [notified api_down; notified api_down], s',
       replicate 2 (AccountSummary ""))
    ∧ notifs s' = []
    ∧ _cash s' = PyFloat 0 ∧ _value s' = PyFloat 0.
Proof.
  apply (fetch_errors_are_delivered_in_order [failing; failing]
           [api_down; api_down] (broker_started broker0 store0) []).
  - reflexivity.
  - repeat constructor; discriminate.
  - repeat constructor.
Defined.

(** ** [start], with a broker *)

Lemma start_broker_eq b window s :
  start None (Some b) window s =
  let '(r, s', t) := poller_until_set window (broker_started b s) in
  (match r with Ok _ => Ok tt | Raise e => Raise e end,
   s', broker_start_effects s ++ t).
Proof.
  unfold start, broker_threads, streaming_events, _evt_acct_wait.
  unfold_M. simpl.
  change (set_q_account [PyBool true] (set_q_account [] (set_broker (Some b) s)))
    with (broker_started b s).
  destruct (poller_until_set window (broker_started b s)) as [[[r|e] s'] t];
    simpl; by rewrite ?app_nil_r.
Qed.

Lemma _t_account_body_trace i s :
  (_t_account_body i s).2 = []
  ∨ (_t_account_body i s).2 = [AccountSummary (account (p s))].
Proof.
  rewrite _t_account_body_cases.
  destruct (next_msg i s) as [[]|]; auto; right; by_body_cases i.
Qed.

Lemma poller_until_set_trace window : ∀ s,
  ∃ n flag s',
    (n ≤ length window)%nat
    ∧ poller_until_set window s
      = (Ok flag, s', replicate n (AccountSummary (account (p s)))).
Proof.
  induction window as [|i w IH]; intros s; simpl.
  - exists 0%nat. destruct (_evt_acct s); by eexists _, _.
  - destruct (_evt_acct s); [exists 0%nat; eexists _, _; split; [lia|done]|].
    assert (Ht := _t_account_body_trace i s).
    assert (Hp := _t_account_body_p i s).
    destruct (_t_account_body i s) as [[[[]|e] s1] t1]; simpl in *.
    + destruct (IH s1) as (n & flag & s' & Hn & ->). rewrite Hp.
      destruct Ht as [->| ->].
      * exists n, flag, s'. split; [lia|done].
      * exists (S n), flag, s'. split; [lia|done].
    + destruct Ht as [->| ->];
        [exists 0%nat|exists 1%nat]; eexists _, _; (split; [lia|done]).
    + destruct Ht as [->| ->];
        [exists 0%nat|exists 1%nat]; eexists _, _; (split; [lia|done]).
Qed.

(** X8. [start] with a broker does not raise, whatever happens in the poller
    thread meanwhile, an uncaught exception included; and besides starting
    its three threads and waiting, all that is done before it returns is
    calls of the API by the poller, one at most for each iteration in the
    window. In particular the broker is not told of the data feeds that
    registered before it. *)
Theorem start_broker_does_not_raise (b : broker_ref)
    (window : list cycle_input) (s : OandaV20Store) :
  ∃ n s',
    (n ≤ length window)%nat
    ∧ start None (Some b) window s
      = (Ok tt, s',
         broker_start_effects s
         ++ replicate n (AccountSummary (account (p s)))).
Proof.
  rewrite start_broker_eq.
  destruct (poller_until_set_trace window (broker_started b s))
    as (n & flag & s' & Hn & ->).
  by exists n, s'.
Qed.

(** X9. The update that [broker_threads] forces by putting [True] on the new
    queue: when the API answers the first iteration of the poller with an
    account that has both fields, [start] returns after that iteration,
    with the flag set and the account's figures for [get_cash] and
    [get_value], whatever was on the queue before and whatever other
    threads put on it meanwhile. *)
Theorem start_fetches_at_once (b : broker_ref) (i : cycle_input)
    (window : list cycle_input) (s : OandaV20Store) (acc : Account)
    (c v : pyval) :
  _evt_acct s = false →
  fetch i = Ok acc →
  marginAvailable acc = Ok c →
  balance acc = Ok v →
  ∃ s',
    start None (Some b) (i :: window) s
    = (Ok tt, s', broker_start_effects s ++ [AccountSummary (account (p s))])
    ∧ broker s' = Some b
    ∧ _evt_acct s' = true
    ∧ get_cash s' = (Ok c, s', [])
    ∧ get_value s' = (Ok v, s', [])
    ∧ q_account s' = puts i.
Proof.
  intros Hflag Hf Hc Hv. rewrite start_broker_eq. simpl poller_until_set.
  change (_evt_acct (broker_started b s)) with (_evt_acct s). rewrite Hflag.
  rewrite _t_account_body_cases, Hf, Hc, Hv. simpl.
  destruct window; simpl; eexists; repeat split.
Qed.

Lemma start_fetches_at_once_witness :
  ∃ s',
    start None (Some broker0)
          [{| puts := [PyNone]; summary := Ok {| get_account := Ok account_ok |} |};
           failing]
          (set_q_account [PyNone] store0)
    = (Ok tt, s', broker_start_effects store0 ++ [AccountSummary ""])
    ∧ broker s' = Some broker0
    ∧ _evt_acct s' = true
    ∧ get_cash s' = (Ok (PyFloat (100 # 1)), s', [])
    ∧ get_value s' = (Ok (PyFloat (250 # 1)), s', [])
    ∧ q_account s' = [PyNone].
Proof.
  apply (start_fetches_at_once broker0
           {| puts := [PyNone]; summary := Ok {| get_account := Ok account_ok |} |}
           [failing] (set_q_account [PyNone] store0) account_ok);
    reflexivity.
Defined.

Lemma poller_until_set_failing window : ∀ errs s,
  _evt_acct s = false →
  Forall2 (λ i e, fetch i = Raise e) window errs →
  Forall (λ msg, msg ≠ PyNone) (q_account s ++ concat (puts <$> window)) →
  poller_until_set window s =
  let '(_, s', t) := _t_account window s in (Ok false, s', t).
Proof.
  induction window as [|i w IH]; intros errs s Hflag Herrs Hq; simpl.
  - by rewrite Hflag.
  - rewrite Hflag.
    apply Forall2_cons_inv_l in Herrs as (e & errs' & He & Herrs & ->).
    simpl in Hq. apply next_msg_not_None in Hq as [Hm Hq].
    unfold mbind, M_bind.
    rewrite (_t_account_body_fetch_raises i s e Hm He).
    set (s1 := set_notifs _ _) in *.
    rewrite (IH errs' s1 Hflag Herrs Hq).
    by destruct (_t_account w s1) as [[r s'] t].
Qed.

(** X10. When every fetch in the window raises, [start] still returns, the
    timeout over: the broker is registered, the flag is unset, cash and
    value are what they were, and each failure has left its notification,
    in order. *)
Theorem start_times_out_when_fetches_fail (b : broker_ref)
    (window : list cycle_input) (errs : list exn) (s : OandaV20Store) :
  _evt_acct s = false →
  Forall (λ msg, msg ≠ PyNone) (concat (puts <$> window)) →
  Forall2 (λ i e, fetch i = Raise e) window errs →
  ∃ s',
    start None (Some b) window s
    = (Ok tt, s',
       broker_start_effects s
       ++ replicate (length window) (AccountSummary (account (p s))))
    ∧ broker s' = Some b
    ∧ _evt_acct s' = false
    ∧ _cash s' = _cash s
    ∧ _value s' = _value s
    ∧ notifs s' = notifs s ++ (Some ∘ notified <$> errs).
Proof.
  intros Hflag Hq Herrs. rewrite start_broker_eq.
  assert (Hq' : Forall (λ msg, msg ≠ PyNone)
                  (q_account (broker_started b s) ++ concat (puts <$> window))).
  { simpl. by apply Forall_cons. }
  rewrite (poller_until_set_failing window errs (broker_started b s)
             Hflag Herrs Hq').
  destruct (_t_account_failing window errs (broker_started b s) Herrs Hq')
    as (s' & -> & Hn & Hc & Hv & Hfl & Hfr).
  exists s'. repeat split; try done.
  - by destruct Hfr as (_ & _ & -> & _).
  - by rewrite Hfl.
Qed.

Lemma start_times_out_when_fetches_fail_witness :
  ∃ s',
    start None (Some broker0) [failing; failing] store0
    = (Ok tt, s', broker_start_effects store0 ++ replicate 2 (AccountSummary ""))
    ∧ broker s' = Some broker0
    ∧ _evt_acct s' = false
    ∧ _cash s' = PyFloat 0
    ∧ _value s' = PyFloat 0
    ∧ notifs s' = [Some (notified api_down); Some (notified api_down)].
Proof.
  apply (start_times_out_when_fetches_fail broker0 [failing; failing]
           [api_down; api_down] store0).
  - reflexivity.
  - repeat constructor.
  - repeat constructor.
Defined.

(** ** [start], with data feeds *)

(** X11. Data feeds register in the order of their calls: after [start(data=d)]
    for each feed of [ds], [datas] is what it was followed by [ds],
    [_env] is that of the last feed, and nothing else has changed in the
    store; the broker, when one is registered, has been told of each feed
    in turn, and no thread was started. *)
Theorem start_feeds_in_order (ds : list data_feed) (s : OandaV20Store) :
  start_feeds ds s
  = (Ok tt,
     set_datas (datas s ++ ds)
       (set__env (default (_env s) (feed_env <$> last ds)) s),
     match broker s with
     | Some b => DataStarted b <$> ds
     | None => []
     end).
Proof.
  revert s. induction ds as [|d ds IH]; intros s.
  - simpl. unfold_M. rewrite app_nil_r. destruct s as [? ? ? ? ? ? []];
      reflexivity.
  - change (start_feeds (d :: ds))
      with (start (Some d) None [];; start_feeds ds).
    unfold mbind at 1, M_bind at 1.
    assert (Hd : start (Some d) None [] s
                 = (Ok tt, set_datas (datas s ++ [d]) (set__env (feed_env d) s),
                    match broker s with
                    | Some b => [DataStarted b d]
                    | None => []
                    end)).
    { unfold start. unfold_M. simpl. by destruct (broker s). }
    rewrite Hd, IH. rewrite last_cons. simpl.
    rewrite <- app_assoc. simpl.
    destruct (last ds) as [d'|]; simpl; destruct (broker s); reflexivity.
Qed.

(** ** The streaming listener *)

(** X12. The listener has no way out of its loop: unlike the poller it does not
    compare what it gets with [None]. Whatever the items, [None]
    included, it prints each of them, in order, leaves the store as it
    is, and goes on to the next [get]. *)
Theorem _t_streaming_listener_never_ends (got : list pyval)
    (s : OandaV20Store) :
  _t_streaming_listener got s = (Ok in_loop, s, got).
Proof.
  induction got as [|trans got IH]; simpl; [done|]. by rewrite IH.
Qed.

(** ** Calls in any order *)

Lemma evolves_refl s : evolves s s.
Proof. by repeat split. Qed.

Lemma evolves_trans s1 s2 s3 : evolves s1 s2 → evolves s2 s3 → evolves s1 s3.
Proof.
  intros (Hp & Ho & Hos & Hf & Hm & Hd & Hb) (Hp' & Ho' & Hos' & Hf' & Hm' & Hd' & Hb').
  repeat split; try congruence; auto.
  by etrans.
Qed.

Lemma _t_account_body_evolves i s : evolves s (_t_account_body i s).1.2.
Proof.
  destruct (_t_account_body_frame i s) as (Hp & _ & Hb & Hd & Ho & Hos & _).
  repeat split; try done.
  - apply _t_account_body_keeps_flag.
  - apply no_mark__t_account_body.
  - by rewrite Hd.
  - by rewrite Hb.
Qed.

Lemma _t_account_evolves inputs : ∀ s, evolves s (_t_account inputs s).1.2.
Proof.
  induction inputs as [|i inputs IH]; intros s; [apply evolves_refl|].
  simpl. unfold mbind, M_bind.
  assert (Hi := _t_account_body_evolves i s).
  destruct (_t_account_body i s) as [[[[]|e] s1] t1]; simpl in *; try done.
  specialize (IH s1).
  destruct (_t_account inputs s1) as [[r s2] t2]; simpl in *.
  by eapply evolves_trans.
Qed.

Lemma poller_until_set_evolves window s :
  evolves s (poller_until_set window s).1.2.
Proof.
  destruct (poller_until_set_spec window s) as (k & _ & H).
  assert (He := _t_account_evolves (take k window) s).
  destruct (_t_account (take k window) s) as [[r s'] t].
  destruct H as (-> & _). done.
Qed.

Lemma broker_threads_eq window s :
  broker_threads window s =
  let '(r, s', t) := poller_until_set window (set_q_account [PyBool true] s) in
  (match r with Ok _ => Ok tt | Raise e => Raise e end, s',
   [ThreadStart Target_t_account true; EventWait (account_tmout (p s))] ++ t).
Proof.
  unfold broker_threads, _evt_acct_wait. unfold_M. simpl.
  change (set_q_account [PyBool true] (set_q_account [] s))
    with (set_q_account [PyBool true] s).
  destruct (poller_until_set window (set_q_account [PyBool true] s))
    as [[[r|e] s'] t]; simpl; by rewrite ?app_nil_r.
Qed.

Lemma start_data_eq d broker_ window s :
  start (Some d) broker_ window s
  = (Ok tt, set_datas (datas s ++ [d]) (set__env (feed_env d) s),
     match broker s with
     | Some b => [DataStarted b d]
     | None => []
     end).
Proof. unfold start. unfold_M. simpl. by destruct (broker s). Qed.

Lemma after_call_evolves c s : evolves s (after_call c s).
Proof.
  destruct c; simpl; try apply evolves_refl.
  - destruct data as [d|]; [|destruct broker_ as [b|]].
    + rewrite start_data_eq. repeat split; try done.
      simpl. by apply prefix_app_r.
    + rewrite start_broker_eq.
      assert (He := poller_until_set_evolves window (broker_started b s)).
      destruct (poller_until_set window (broker_started b s)) as [[r s'] t].
      simpl in *. eapply evolves_trans; [|exact He].
      repeat split; try done; simpl; eauto.
    + by repeat split.
  - repeat split; try done. apply no_mark_put_notification.
  - assert (Hm := no_mark_get_notifications others s).
    unfold get_notifications in *.
    destruct (popleft_until_mark others (notifs s ++ [None])) as [r q].
    by repeat split.
  - rewrite broker_threads_eq.
    assert (He := poller_until_set_evolves window
                    (set_q_account [PyBool true] s)).
    destruct (poller_until_set window (set_q_account [PyBool true] s))
      as [[r s'] t].
    simpl in *. eapply evolves_trans; [|exact He]. by repeat split.
  - apply _t_account_body_evolves.
Qed.

Lemma after_calls_evolves cs : ∀ s, evolves s (after_calls cs s).
Proof.
  induction cs as [|c cs IH]; intros s; [apply evolves_refl|].
  simpl. eapply evolves_trans; [apply after_call_evolves|apply IH].
Qed.

(** X13. The parameters and the two API contexts are those that [__init__]
    set: no call of a method and no iteration of the poller, in any
    number and order, assigns them. *)
Theorem configuration_never_changes (cs : list call) (s : OandaV20Store) :
  p (after_calls cs s) = p s
  ∧ oapi (after_calls cs s) = oapi s
  ∧ oapi_stream (after_calls cs s) = oapi_stream s.
Proof.
  destruct (after_calls_evolves cs s) as (? & ? & ? & _). done.
Qed.

(** X14. The ready event is one-shot: once set, the flag stays set through any
    calls of the methods and iterations of the poller. *)
Theorem ready_flag_is_never_cleared (cs : list call) (s : OandaV20Store) :
  _evt_acct s = true → _evt_acct (after_calls cs s) = true.
Proof.
  destruct (after_calls_evolves cs s) as (_ & _ & _ & H & _). done.
Qed.

Lemma ready_flag_is_never_cleared_witness :
  _evt_acct
    (after_calls
       [Call_start None (Some broker0) [fetching account_ok];
        Poller_iteration failing; Call_stop;
        Call_start None (Some broker0) [failing];
        Call_get_notifications []]
       store0) = true.
Proof.
  apply (ready_flag_is_never_cleared
           [Poller_iteration failing; Call_stop;
            Call_start None (Some broker0) [failing];
            Call_get_notifications []]
           (after_call (Call_start None (Some broker0) [fetching account_ok])
                       store0)).
  reflexivity.
Defined.

(** X15. Between two calls the deque holds no mark: on the store that
    [__init__] has made, after any calls of the methods and iterations of
    the poller, in any number and order, the deque holds notifications
    only. *)
Theorem deque_holds_no_mark_between_calls (prm : params) (cs : list call)
    (s : OandaV20Store) :
  __init__ prm = Ok s → no_mark (after_calls cs s).
Proof.
  intros Hs. destruct (after_calls_evolves cs s) as (_ & _ & _ & _ & H & _).
  apply H. by eapply no_mark___init__.
Qed.

Lemma deque_holds_no_mark_between_calls_witness :
  no_mark
    (after_calls
       [Call_start None (Some broker0) [failing; failing];
        Call_put_notification (PyStr "a") [] [];
        Call_get_notifications [[note "b"]];
        Poller_iteration failing]
       store0).
Proof.
  exact (deque_holds_no_mark_between_calls default_params
           [Call_start None (Some broker0) [failing; failing];
            Call_put_notification (PyStr "a") [] [];
            Call_get_notifications [[note "b"]];
            Poller_iteration failing]
           store0 eq_refl).
Defined.

(** X16. Nothing unregisters: through any calls and iterations, the data feeds
    that were registered are still the first of [datas], in the same
    order, and a broker is still registered if one was. *)
Theorem feeds_and_broker_stay_registered (cs : list call)
    (s : OandaV20Store) :
  datas s `prefix_of` datas (after_calls cs s)
  ∧ (is_Some (broker s) → is_Some (broker (after_calls cs s))).
Proof.
  destruct (after_calls_evolves cs s) as (_ & _ & _ & _ & _ & ? & ?). done.
Qed.

Lemma after_call_without_poller c s :
  without_poller c = true →
  _cash (after_call c s) = _cash s
  ∧ _value (after_call c s) = _value s
  ∧ _evt_acct (after_call c s) = _evt_acct s.
Proof.
  destruct c; unfold after_call, without_poller;
    try (intros _; (split; [|split]); reflexivity).
  - intros Hw. destruct data as [d|]; [|destruct broker_ as [b|]].
    + rewrite start_data_eq. split. { reflexivity. } split. { reflexivity. } reflexivity.
    + destruct window as [|i w]; [|done]. rewrite start_broker_eq. simpl.
      destruct (_evt_acct s) eqn:E; (split; [|split]);
        reflexivity || exact E.
    + split; [|split]; reflexivity.
  - intros _. unfold get_notifications.
    destruct (popleft_until_mark others (notifs s ++ [None]));
      (split; [|split]); reflexivity.
  - intros Hw. destruct window; [|done]. rewrite broker_threads_eq. simpl.
    destruct (_evt_acct s) eqn:E; (split; [|split]);
      reflexivity || exact E.
  - done.
Qed.

(** X17. The poller is the only writer of [_cash], of [_value] and of the ready
    flag: calls of the methods, in any number and order, during which no
    iteration of the poller runs, leave the three as they were. *)
Theorem only_the_poller_writes_cash_and_value (cs : list call)
    (s : OandaV20Store) :
  Forall (λ c, without_poller c = true) cs →
  _cash (after_calls cs s) = _cash s
  ∧ _value (after_calls cs s) = _value s
  ∧ _evt_acct (after_calls cs s) = _evt_acct s.
Proof.
  revert s. induction cs as [|c cs IH]; intros s Hcs; [done|].
  apply Forall_cons in Hcs as [Hc Hcs]. simpl.
  destruct (after_call_without_poller c s Hc) as (<- & <- & <-).
  by apply IH.
Qed.

Lemma only_the_poller_writes_cash_and_value_witness :
  let s' :=
    after_calls
      [Call_start (Some feed0) None []; Call_start None (Some broker0) [];
       Call_put_notification (PyStr "a") [] []; Call_order_cancel PyNone;
       Call_get_notifications []; Call_start None None []]
      store0 in
  _cash s' = PyFloat 0 ∧ _value s' = PyFloat 0 ∧ _evt_acct s' = false.
Proof.
  apply (only_the_poller_writes_cash_and_value
           [Call_start (Some feed0) None []; Call_start None (Some broker0) [];
            Call_put_notification (PyStr "a") [] []; Call_order_cancel PyNone;
            Call_get_notifications []; Call_start None None []]
           store0).
  repeat (apply Forall_cons; split; [reflexivity|]). apply Forall_nil_2.
Defined.

Lemma _t_account_body_notifs i s :
  notifs s `prefix_of` notifs (_t_account_body i s).1.2.
Proof.
  rewrite _t_account_body_cases.
  destruct (next_msg i s) as [[]|]; try done;
    (destruct (fetch i) as [acc|err]; [|by apply prefix_app_r];
     destruct (marginAvailable acc) as [?|err];
     [destruct (balance acc) as [?|err]; [done|]|];
     destruct (is_KeyError err); done).
Qed.

Lemma _t_account_notifs inputs : ∀ s,
  notifs s `prefix_of` notifs (_t_account inputs s).1.2.
Proof.
  induction inputs as [|i inputs IH]; intros s; [done|].
  simpl. unfold mbind, M_bind.
  assert (Hi := _t_account_body_notifs i s).
  destruct (_t_account_body i s) as [[[[]|e] s1] t1]; simpl in *; try done.
  specialize (IH s1).
  destruct (_t_account inputs s1) as [[r s2] t2]; simpl in *.
  by etrans.
Qed.

Lemma poller_until_set_notifs window s :
  notifs s `prefix_of` notifs (poller_until_set window s).1.2.
Proof.
  destruct (poller_until_set_spec window s) as (k & _ & H).
  assert (He := _t_account_notifs (take k window) s).
  destruct (_t_account (take k window) s) as [[r s'] t].
  destruct H as (-> & _). done.
Qed.

Lemma after_call_notifs c s :
  is_get_notifications c = false →
  notifs s `prefix_of` notifs (after_call c s).
Proof.
  destruct c; unfold after_call, is_get_notifications; try done; intros _.
  - destruct data as [d|]; [|destruct broker_ as [b|]].
    + rewrite start_data_eq. done.
    + rewrite start_broker_eq.
      assert (He := poller_until_set_notifs window (broker_started b s)).
      by destruct (poller_until_set window (broker_started b s)) as [[r s'] t].
    + done.
  - by apply prefix_app_r.
  - rewrite broker_threads_eq.
    assert (He := poller_until_set_notifs window
                    (set_q_account [PyBool true] s)).
    by destruct (poller_until_set window (set_q_account [PyBool true] s))
      as [[r s'] t].
  - apply _t_account_body_notifs.
Qed.

(** X18. A notification leaves the deque by [get_notifications] only: through
    any calls of the other methods and iterations of the poller, what was
    in the deque is still there, in the same order and ahead of what was
    appended since. *)
Theorem notifications_wait_for_get_notifications (cs : list call)
    (s : OandaV20Store) :
  Forall (λ c, is_get_notifications c = false) cs →
  notifs s `prefix_of` notifs (after_calls cs s).
Proof.
  revert s. induction cs as [|c cs IH]; intros s Hcs; [done|].
  apply Forall_cons in Hcs as [Hc Hcs]. simpl.
  etrans; [by apply after_call_notifs|by apply IH].
Qed.

Lemma notifications_wait_for_get_notifications_witness :
  [Some (note "a")]
  `prefix_of`
  notifs
    (after_calls
       [Call_start None (Some broker0) [failing];
        Call_put_notification (PyStr "b") [] []; Call_stop;
        Poller_iteration failing]
       (set_notifs [Some (note "a")] store0)).
Proof.
  apply (notifications_wait_for_get_notifications
           [Call_start None (Some broker0) [failing];
            Call_put_notification (PyStr "b") [] []; Call_stop;
            Poller_iteration failing]
           (set_notifs [Some (note "a")] store0)).
  repeat constructor.
Defined.

Lemma feeds_and_broker_stay_registered_witness :
  let s' :=
    after_calls
      [Call_start (Some feed0) None []; Call_start None None [];
       Call_start None (Some 1%nat) [failing]; Poller_iteration told_to_end]
      (set_datas [feed0] (set_broker (Some broker0) store0)) in
  [feed0] `prefix_of` datas s' ∧ is_Some (broker s').
Proof.
  destruct (feeds_and_broker_stay_registered
              [Call_start (Some feed0) None []; Call_start None None [];
               Call_start None (Some 1%nat) [failing];
               Poller_iteration told_to_end]
              (set_datas [feed0] (set_broker (Some broker0) store0)))
    as [Hd Hb].
  split; [exact Hd|]. apply Hb. by eexists.
Defined.
